(** * StoryScape: the retrieval-augmented story pipeline

    A shallow embedding of [stories/models.py], [stories/utils.py],
    [stories/tasks.py], [stories/serializers.py] and [stories/views.py].

    Modelling conventions.
    - The relational store is a record of tables; a table is the list of its
      rows in insertion order.  Primary keys come from a per-table sequence.
    - A Python exception is a value of [Exception]; code that may raise runs
      in the monad [M], which threads the [World] (store, log records, Celery
      queue) and keeps the writes made before a raise: Django runs in
      autocommit mode and the tasks open no transaction.
    - Any statement sent to the database may fail for reasons outside the
      program (connection loss, timeout).  The [faults] schedule of the world
      decides this: each statement consumes one entry, and an entry
      [Some msg] makes that statement raise [DatabaseError msg].
    - A float is an element of an abstract type with a distinguished [0.0];
      the embedding model and the distance ordering of pgvector are
      parameters.  An embedding held by a model instance is a Python list (or
      [None]), the shape [generate_embedding] produces.
    - Time stamps ([created_at], [updated_at]) are not modelled.
    - The world also keeps, as a ghost, the [history] of the store: the
      state after each write, so that statements can speak of every state
      the store went through. *)

From Stdlib Require Import ZArith List String Ascii Bool Lia DecimalString.
From Stdlib Require Import Sorting.Permutation Sorting.Sorted.
Import ListNotations.

Set Implicit Arguments.

Local Open Scope string_scope.
Local Open Scope Z_scope.

(** ** Python helpers *)

(** [str(n)] for an [int]. *)
Definition str_int (n : Z) : string := NilZero.string_of_int (Z.to_int n).

(** The newline character. *)
Definition nl : string := String (ascii_of_nat 10) EmptyString.

(** [sep.join(parts)]. *)
Fixpoint join (sep : string) (parts : list string) : string :=
  match parts with
  | [] => ""
  | [p] => p
  | p :: rest => p ++ sep ++ join sep rest
  end.

(** [s.replace(' ', '+')]: every space becomes a plus sign. *)
Fixpoint replace_space_plus (s : string) : string :=
  match s with
  | EmptyString => EmptyString
  | String c rest =>
      String (if Ascii.eqb c " "%char then "+"%char else c)
             (replace_space_plus rest)
  end.

(** Truth value of a list ([not xs] is [negb (list_truthy xs)]). *)
Definition list_truthy {A : Type} (xs : list A) : bool :=
  match xs with [] => false | _ :: _ => true end.

(** Truth value of an optional list: [None] and [[]] are falsy. *)
Definition opt_list_truthy {A : Type} (xs : option (list A)) : bool :=
  match xs with None => false | Some l => list_truthy l end.

(** Truth value of an optional [int]: [None] and [0] are falsy. *)
Definition opt_int_truthy (n : option Z) : bool :=
  match n with None => false | Some k => negb (k =? 0) end.

(** ** Exceptions and logging *)

Inductive Exception : Type :=
| DoesNotExist (model : string)
| MultipleObjectsReturned (model : string)
| IntegrityError (msg : string)
| DatabaseError (msg : string)
| ValueError (msg : string)
| ValidationError (msg : string)
| RuntimeError (msg : string)
| Http404.

(** [str(e)]. *)
Definition str (e : Exception) : string :=
  match e with
  | DoesNotExist model => model ++ " matching query does not exist."
  | MultipleObjectsReturned model =>
      "get() returned more than one " ++ model ++ "!"
  | IntegrityError msg => msg
  | DatabaseError msg => msg
  | ValueError msg => msg
  | ValidationError msg => msg
  | RuntimeError msg => msg
  | Http404 => "Not found."
  end.

(** [isinstance(e, ObjectDoesNotExist)]. *)
Definition is_ObjectDoesNotExist (e : Exception) : bool :=
  match e with DoesNotExist _ => true | _ => false end.

(** [isinstance(e, FlashCard.DoesNotExist)]. *)
Definition is_FlashCard_DoesNotExist (e : Exception) : bool :=
  match e with DoesNotExist model => String.eqb model "FlashCard" | _ => false end.

(** [isinstance(e, serializers.ValidationError)]. *)
Definition is_ValidationError (e : Exception) : bool :=
  match e with ValidationError _ => true | _ => false end.

Inductive Level : Type := INFO | WARNING | ERROR.

Definition LogRecord : Type := (Level * string)%type.

(** ** Celery *)

Inductive Task : Type :=
| generate_story_segment_job (story_id : Z) (user_prompt : string)
                             (parent_card_id : option Z)
| generate_image_job (flashcard_id : option Z) (style : option string)
| recalculate_embedding_job (flashcard_id : option Z)
| create_initial_story_job (story_id : Z).

(** What a task returns: the dictionaries of [tasks.py]. *)
Inductive TaskResult : Type :=
| SegmentGenerated (card_id : option Z) (generated_text : string)
| ImageGenerated (image_url : string)
| EmbeddingRecalculated (flashcard_id : Z)
| TaskFailed (error : string).

(** The ['success'] entry of the result. *)
Definition success (r : TaskResult) : bool :=
  match r with TaskFailed _ => false | _ => true end.

(** ** HTTP *)

Inductive Response : Type :=
| Accepted202 (message : string) (task_id : nat) (id : Z)
| BadRequest400 (errors : list (string * string))
| NotFound404
| ServerError500 (e : Exception).


Section StoryScape.

(** Python floats, and the literal [0.0]. *)
Context {float : Type}.
Variable zero : float.

Definition Vector : Type := list float.

(** [utils.embedding_model]: [None] when loading the sentence transformer
    failed; otherwise [encode(text).tolist()], which either raises or
    yields the list. *)
Variable embedding_model : option (string -> Exception + Vector).

(** The order pgvector gives to two stored embeddings by
    [CosineDistance('embedding', query)]: [true] when the first is at most
    as far from the query as the second. *)
Variable CosineDistance_leb : Vector -> Vector -> Vector -> bool.

(** rest_framework's [CharField(write_only=True)] applied to the submitted
    value ([None] when the key is absent): the validated string, or the
    error message. *)
Variable CharField : option string -> string + string.

(** ** models.py *)

Record Story : Type := mkStory {
  story_pk : Z;
  owner : Z;
  title : string;
  initial_prompt : string
}.

Record FlashCard : Type := mkFlashCard {
  card_pk : option Z;            (* None until the first save *)
  card_story : Z;                (* story_id *)
  content_text : string;
  embedding : option Vector;
  image_url : option string
}.

Record CardConnection : Type := mkCardConnection {
  conn_pk : option Z;
  conn_story : Z;
  source_card : Z;               (* source_card_id *)
  target_card : Z                (* target_card_id *)
}.

Record Database : Type := mkDatabase {
  stories : list Story;
  flashcards : list FlashCard;
  connections : list CardConnection;
  flashcard_seq : Z;             (* next value of the id sequence *)
  connection_seq : Z
}.

Record World : Type := mkWorld {
  db : Database;
  records : list LogRecord;      (* what the loggers emitted, oldest first *)
  faults : list (option string); (* fate of the coming database statements *)
  queue : list Task;             (* tasks handed to Celery, oldest first *)
  history : list Database        (* ghost: the store after each write *)
}.

(** A write: the store changes and the new store joins the history. *)
Definition with_db (w : World) (d : Database) : World :=
  mkWorld d (records w) (faults w) (queue w) (history w ++ [d]).

Definition with_flashcards (d : Database) (cs : list FlashCard) (seq : Z)
  : Database :=
  mkDatabase (stories d) cs (connections d) seq (connection_seq d).

Definition with_connections (d : Database) (cs : list CardConnection) (seq : Z)
  : Database :=
  mkDatabase (stories d) (flashcards d) cs (flashcard_seq d) seq.

Definition set_embedding (c : FlashCard) (e : option Vector) : FlashCard :=
  mkFlashCard (card_pk c) (card_story c) (content_text c) e (image_url c).

Definition set_image_url (c : FlashCard) (u : option string) : FlashCard :=
  mkFlashCard (card_pk c) (card_story c) (content_text c) (embedding c) u.

Definition set_content_text (c : FlashCard) (t : string) : FlashCard :=
  mkFlashCard (card_pk c) (card_story c) t (embedding c) (image_url c).

(** ** The monad of code that may raise *)

Inductive Outcome (A : Type) : Type :=
| Returned (a : A)
| Raised (e : Exception).
Arguments Raised {A} e.

Definition M (A : Type) : Type := World -> Outcome A * World.

Definition ret {A : Type} (a : A) : M A := fun w => (Returned a, w).

Definition raise {A : Type} (e : Exception) : M A := fun w => (Raised e, w).

Definition bind {A B : Type} (m : M A) (k : A -> M B) : M B :=
  fun w =>
    match m w with
    | (Returned a, w') => k a w'
    | (Raised e, w') => (Raised e, w')
    end.

(** [try: body except <handles>: handler(e)]; an exception the clause does
    not name goes on. *)
Definition try_except {A : Type} (body : M A) (handles : Exception -> bool)
  (handler : Exception -> M A) : M A :=
  fun w =>
    match body w with
    | (Returned a, w') => (Returned a, w')
    | (Raised e, w') => if handles e then handler e w' else (Raised e, w')
    end.

(** [except Exception] names every exception of the model. *)
Definition any_Exception (e : Exception) : bool := true.

Notation "x <- m ;; k" := (bind m (fun x => k))
  (at level 61, m at next level, right associativity).
Notation "m ;;; k" := (bind m (fun _ => k))
  (at level 61, right associativity).

(** ** The database *)

(** One statement sent to the database: it consumes the next entry of the
    fault schedule and raises when that entry says so. *)
Definition db_statement : M unit :=
  fun w =>
    match faults w with
    | [] => (Returned tt, w)
    | None :: rest =>
        (Returned tt, mkWorld (db w) (records w) rest (queue w) (history w))
    | Some msg :: rest =>
        (Raised (DatabaseError msg),
         mkWorld (db w) (records w) rest (queue w) (history w))
    end.

Definition read_db : M Database := fun w => (Returned (db w), w).

Definition write_db (d : Database) : M unit :=
  fun w => (Returned tt, with_db w d).

(** [logger.<level>(msg)]. *)
Definition logger (lvl : Level) (msg : string) : M unit :=
  fun w =>
    (Returned tt,
     mkWorld (db w) (records w ++ [(lvl, msg)])%list (faults w) (queue w)
             (history w)).

(** [task.delay(...)]: the task goes to the queue; the handle is its
    position there. *)
Definition delay (t : Task) : M nat :=
  fun w =>
    (Returned (List.length (queue w)),
     mkWorld (db w) (records w) (faults w) (queue w ++ [t])%list (history w)).

(** What [QuerySet.get] makes of the matching rows. *)
Definition get_one {A : Type} (model : string) (rows : list A) : M A :=
  match rows with
  | [] => raise (DoesNotExist model)
  | [r] => ret r
  | _ :: _ :: _ => raise (MultipleObjectsReturned model)
  end.

Definition pk_is (pk : option Z) (k : Z) : bool :=
  match pk with Some x => x =? k | None => false end.

(** [Model.objects.get(...)]: one statement, then [get_one] on the rows the
    lookup selects. *)
Definition QuerySet_get {A : Type} (model : string)
  (select : Database -> list A) : M A :=
  db_statement ;;;
  d <- read_db ;;
  get_one model (select d).

(** [Story.objects.get(id=story_id)]. *)
Definition Story_objects_get (story_id : Z) : M Story :=
  QuerySet_get "Story"
    (fun d => filter (fun s => story_pk s =? story_id) (stories d)).

(** [FlashCard.objects.get(id=card_id)]. *)
Definition FlashCard_objects_get (card_id : Z) : M FlashCard :=
  QuerySet_get "FlashCard"
    (fun d => filter (fun c => pk_is (card_pk c) card_id) (flashcards d)).

(** [FlashCard.objects.get(id=card_id, story_id=story_id)]. *)
Definition FlashCard_objects_get_in_story (card_id story_id : Z) : M FlashCard :=
  QuerySet_get "FlashCard"
    (fun d =>
       filter (fun c => pk_is (card_pk c) card_id && (card_story c =? story_id))
              (flashcards d)).

(** [get_object_or_404(Story, id=story_id, owner=user)]. *)
Definition get_Story_or_404 (story_id user : Z) : M Story :=
  try_except
    (QuerySet_get "Story"
       (fun d =>
          filter (fun s => (story_pk s =? story_id) && (owner s =? user))
                 (stories d)))
    is_ObjectDoesNotExist
    (fun _ => raise Http404).

(** The row [models.Model.save] writes for a flashcard, and the store
    after it: an instance without a primary key is inserted under the next
    value of the sequence; one with a key replaces the row of that key, and
    is inserted under its key when there is none. *)
Definition store_card (d : Database) (self : FlashCard) : FlashCard * Database :=
  match card_pk self with
  | None =>
      let row := mkFlashCard (Some (flashcard_seq d)) (card_story self)
                   (content_text self) (embedding self) (image_url self) in
      (row, with_flashcards d (flashcards d ++ [row])%list (flashcard_seq d + 1))
  | Some k =>
      if existsb (fun c => pk_is (card_pk c) k) (flashcards d)
      then
        (self,
         with_flashcards d
           (map (fun c => if pk_is (card_pk c) k then self else c) (flashcards d))
           (flashcard_seq d))
      else
        (self, with_flashcards d (flashcards d ++ [self])%list (flashcard_seq d))
  end.

(** [models.Model.save] for a flashcard ([super().save()] in
    [FlashCard.save]). *)
Definition FlashCard_Model_save (self : FlashCard) : M FlashCard :=
  db_statement ;;;
  d <- read_db ;;
  write_db (snd (store_card d self)) ;;;
  ret (fst (store_card d self)).

(** [CardConnection.objects.create(story=, source_card=, target_card=)].
    The manager builds the instance and saves it; [clean] is not part of
    saving.  The [unique_together] constraint is the database's. *)
Definition CardConnection_objects_create (story : Story)
  (source target : FlashCard) : M CardConnection :=
  match card_pk source, card_pk target with
  | Some s, Some t =>
      db_statement ;;;
      d <- read_db ;;
      if existsb (fun c => (source_card c =? s) && (target_card c =? t))
                 (connections d)
      then raise (IntegrityError
                    "duplicate key value violates unique constraint")
      else
        let row := mkCardConnection (Some (connection_seq d)) (story_pk story) s t in
        write_db (with_connections d (connections d ++ [row])%list (connection_seq d + 1)) ;;;
        ret row
  | _, _ =>
      raise (ValueError
               "save() prohibited to prevent data loss due to unsaved related object")
  end.

(** [CardConnection.clean], on the two cards the connection refers to.
    Model instances compare by primary key. *)
Definition CardConnection_clean (source target : FlashCard) : Exception + unit :=
  if negb (card_story source =? card_story target)
  then inl (ValidationError "Source and target cards must belong to the same story")
  else
    match card_pk source, card_pk target with
    | Some s, Some t =>
        if s =? t
        then inl (ValidationError "A card cannot connect to itself")
        else inr tt
    | _, _ => inr tt
    end.

(** ** utils.py *)

(** [[0.0] * 384]. *)
Definition zero_vector : Vector := repeat zero 384%nat.

Definition generate_embedding (text : string) : M Vector :=
  match embedding_model with
  | None => ret zero_vector
  | Some encode =>
      match encode text with
      | inr v => ret v
      | inl e =>
          logger ERROR ("Error generating embedding: " ++ str e) ;;;
          ret zero_vector
      end
  end.

Definition generate_story_segment (context user_prompt : string) : string :=
  "Based on the context and your prompt '" ++ user_prompt
  ++ "', here is the next segment of the story...".

Definition generate_image (prompt : string) (style : option string) : string :=
  "https://placeholder.com/image?text=" ++ replace_space_plus prompt.

(** [order_by(CosineDistance('embedding', query))] compares two rows; a
    row without an embedding sorts last. *)
Definition closer (query : Vector) (a b : FlashCard) : bool :=
  match embedding a, embedding b with
  | Some x, Some y => CosineDistance_leb query x y
  | Some _, None => true
  | None, Some _ => false
  | None, None => true
  end.

Fixpoint insert_by (leb : FlashCard -> FlashCard -> bool) (x : FlashCard)
  (l : list FlashCard) : list FlashCard :=
  match l with
  | [] => [x]
  | y :: rest => if leb x y then x :: y :: rest else y :: insert_by leb x rest
  end.

Definition order_by (leb : FlashCard -> FlashCard -> bool)
  (l : list FlashCard) : list FlashCard :=
  fold_right (insert_by leb) [] l.

(** The rows of the query
    [FlashCard.objects.filter(story_id=).order_by(...)[:top_k]]. *)
Definition similar_cards (d : Database) (story_id : Z) (query : Vector)
  (top_k : Z) : list FlashCard :=
  firstn (Z.to_nat top_k)
    (order_by (closer query)
       (filter (fun c => card_story c =? story_id) (flashcards d))).

Definition perform_rag_search (story_id : Z) (query_embedding : Vector)
  (top_k : Z) : M (list string) :=
  try_except
    ((if top_k <? 0
      then raise (ValueError "Negative indexing is not supported.")
      else ret tt) ;;;
     db_statement ;;;
     d <- read_db ;;
     ret (map content_text (similar_cards d story_id query_embedding top_k)))
    any_Exception
    (fun e => logger ERROR ("Error in RAG search: " ++ str e) ;;; ret []).

(** [FlashCard.save]. *)
Definition FlashCard_save (self : FlashCard) : M FlashCard :=
  self' <- (if negb (opt_list_truthy (embedding self))
            then
              e <- generate_embedding (content_text self) ;;
              ret (set_embedding self (Some e))
            else ret self) ;;
  FlashCard_Model_save self'.

(** [FlashCard.objects.create(story=, content_text=, embedding=)]. *)
Definition FlashCard_objects_create (story : Story) (text : string)
  (emb : option Vector) : M FlashCard :=
  FlashCard_save (mkFlashCard None (story_pk story) text emb None).

(** ** tasks.py *)

Definition no_context : string := "No previous context available.".

(** Line 33: the context handed to [generate_story_segment]. *)
Definition assemble_context (context_segments : list string) : string :=
  if list_truthy context_segments
  then join (nl ++ nl) context_segments
  else no_context.

(** Lines 28-33: the query embedding and the context of a turn. *)
Definition retrieve_context (story_id : Z) (user_prompt : string)
  : M (Vector * string) :=
  query_embedding <- generate_embedding user_prompt ;;
  context_segments <- perform_rag_search story_id query_embedding 5 ;;
  ret (query_embedding, assemble_context context_segments).

(** Lines 49-59: the connection from the parent card, when one is named. *)
Definition link_parent (story : Story) (story_id : Z)
  (parent_card_id : option Z) (new_card : FlashCard) : M unit :=
  match parent_card_id with
  | None => ret tt
  | Some pid =>
      if pid =? 0 then ret tt
      else
        try_except
          (parent_card <- FlashCard_objects_get_in_story pid (story_pk story) ;;
           CardConnection_objects_create story parent_card new_card ;;;
           ret tt)
          is_ObjectDoesNotExist
          (fun _ =>
             logger WARNING
               ("Parent card " ++ str_int pid ++ " not found for story "
                ++ str_int story_id))
  end.

(** Lines 38-47: the new card, written twice. *)
Definition persist_segment (story : Story) (generated_text : string)
  (query_embedding : Vector) : M FlashCard :=
  new_card <- FlashCard_objects_create story generated_text
                (Some query_embedding) ;;
  e <- generate_embedding generated_text ;;
  FlashCard_save (set_embedding new_card (Some e)).

Definition generate_story_segment_body (story_id : Z) (user_prompt : string)
  (parent_card_id : option Z) : M TaskResult :=
  story <- Story_objects_get story_id ;;
  qc <- retrieve_context story_id user_prompt ;;
  let generated_text := generate_story_segment (snd qc) user_prompt in
  new_card <- persist_segment story generated_text (fst qc) ;;
  link_parent story story_id parent_card_id new_card ;;;
  logger INFO ("Successfully generated story segment for story "
               ++ str_int story_id) ;;;
  ret (SegmentGenerated (card_pk new_card) generated_text).

Definition generate_story_segment_task (story_id : Z) (user_prompt : string)
  (parent_card_id : option Z) : M TaskResult :=
  try_except
    (generate_story_segment_body story_id user_prompt parent_card_id)
    any_Exception
    (fun e =>
       logger ERROR ("Error generating story segment for story "
                     ++ str_int story_id ++ ": " ++ str e) ;;;
       ret (TaskFailed (str e))).

Definition generate_image_task (flashcard_id : Z) (style : option string)
  : M TaskResult :=
  try_except
    (flashcard <- FlashCard_objects_get flashcard_id ;;
     let url := generate_image (content_text flashcard) style in
     FlashCard_save (set_image_url flashcard (Some url)) ;;;
     logger INFO ("Successfully generated image for flashcard "
                  ++ str_int flashcard_id) ;;;
     ret (ImageGenerated url))
    any_Exception
    (fun e =>
       logger ERROR ("Error generating image for flashcard "
                     ++ str_int flashcard_id ++ ": " ++ str e) ;;;
       ret (TaskFailed (str e))).

Definition recalculate_embedding_task (flashcard_id : Z) : M TaskResult :=
  try_except
    (flashcard <- FlashCard_objects_get flashcard_id ;;
     new_embedding <- generate_embedding (content_text flashcard) ;;
     FlashCard_save (set_embedding flashcard (Some new_embedding)) ;;;
     logger INFO ("Successfully recalculated embedding for flashcard "
                  ++ str_int flashcard_id) ;;;
     ret (EmbeddingRecalculated flashcard_id))
    any_Exception
    (fun e =>
       logger ERROR ("Error recalculating embedding for flashcard "
                     ++ str_int flashcard_id ++ ": " ++ str e) ;;;
       ret (TaskFailed (str e))).

Definition create_initial_story_task (story_id : Z) : M TaskResult :=
  try_except
    (story <- Story_objects_get story_id ;;
     let generated_text := generate_story_segment "" (initial_prompt story) in
     e <- generate_embedding generated_text ;;
     first_card <- FlashCard_objects_create story generated_text (Some e) ;;
     logger INFO ("Successfully created initial story segment for story "
                  ++ str_int story_id) ;;;
     ret (SegmentGenerated (card_pk first_card) generated_text))
    any_Exception
    (fun e =>
       logger ERROR ("Error creating initial story for story "
                     ++ str_int story_id ++ ": " ++ str e) ;;;
       ret (TaskFailed (str e))).

(** ** serializers.py *)

(** The body of a turn submission, integers already parsed; a
    [parent_card_id] that is absent or [null] is [None]. *)
Record TurnRequest : Type := mkTurnRequest {
  user_prompt : option string;
  parent_card_id : option Z
}.

Definition validate_parent_card_id (story_id : Z) (value : option Z)
  : M (option Z) :=
  match value with
  | None => ret value
  | Some v =>
      if v =? 0 then ret value
      else
        try_except
          (FlashCard_objects_get_in_story v story_id ;;; ret tt)
          is_FlashCard_DoesNotExist
          (fun _ => raise (ValidationError
                             "Parent card does not exist in this story")) ;;;
        ret value
  end.

(** [FlashCardCreateSerializer.is_valid]: the fields are validated in the
    order of [Meta.fields] and the errors of all of them are collected. *)
Definition FlashCardCreateSerializer_validate (story_id : Z)
  (data : TurnRequest) : M (list (string * string) + (string * option Z)) :=
  p <- try_except
         (v <- validate_parent_card_id story_id (parent_card_id data) ;;
          ret (inr v))
         is_ValidationError
         (fun e => ret (inl (str e))) ;;
  match p, CharField (user_prompt data) with
  | inr pid, inr prompt => ret (inr (prompt, pid))
  | inl e, inr _ => ret (inl [("parent_card_id", e)])
  | inr _, inl e => ret (inl [("user_prompt", e)])
  | inl e1, inl e2 => ret (inl [("parent_card_id", e1); ("user_prompt", e2)])
  end.

(** [FlashCardUpdateSerializer.update]; [validated] is the new
    [content_text], when the request carries one. *)
Definition FlashCardUpdateSerializer_update (instance : FlashCard)
  (validated : option string) : M FlashCard :=
  let instance' :=
    match validated with
    | Some t => set_content_text instance t
    | None => instance
    end in
  saved <- FlashCard_save instance' ;;
  delay (recalculate_embedding_job (card_pk saved)) ;;;
  ret saved.

(** ** views.py *)

(** What the framework makes of an exception that leaves a view. *)
Definition respond (body : M Response) : World -> Response * World :=
  fun w =>
    match body w with
    | (Returned r, w') => (r, w')
    | (Raised Http404, w') => (NotFound404, w')
    | (Raised e, w') => (ServerError500 e, w')
    end.

(** [FlashCardCreateView.create] for an authenticated [user]. *)
Definition FlashCardCreateView_create (user story_id : Z) (data : TurnRequest)
  : World -> Response * World :=
  respond
    (get_Story_or_404 story_id user ;;;
     v <- FlashCardCreateSerializer_validate story_id data ;;
     match v with
     | inl errors => ret (BadRequest400 errors)
     | inr (prompt, parent) =>
         task_id <- delay (generate_story_segment_job story_id prompt parent) ;;
         ret (Accepted202 "Story segment generation started" task_id story_id)
     end).

(** rest_framework's [CharField(required=False, allow_blank=True)] of
    [ImageGenerationSerializer], applied to the submitted [style] ([None]
    when the key is absent): the validated value, which stays absent when
    the key is, or the error message. *)
Variable StyleField : option string -> string + option string.

(** [FlashCard.objects.filter(story__owner=user)]: the cards whose story
    belongs to [user]. *)
Definition owned_cards (user : Z) (d : Database) : list FlashCard :=
  filter (fun c => existsb (fun s => (story_pk s =? card_story c)
                                     && (owner s =? user)) (stories d))
         (flashcards d).

(** [get_object_or_404(FlashCard.objects.filter(story__owner=user), pk=pk)]. *)
Definition get_owned_FlashCard_or_404 (user pk : Z) : M FlashCard :=
  try_except
    (QuerySet_get "FlashCard"
       (fun d => filter (fun c => pk_is (card_pk c) pk) (owned_cards user d)))
    is_ObjectDoesNotExist
    (fun _ => raise Http404).

(** The answers of [generate_image_view]. *)
Inductive ImageResponse : Type :=
| ImageAccepted202 (message : string) (task_id : nat) (flashcard_id : option Z)
| ImageBadRequest400 (error : string)
| ImageNotFound404
| ImageServerError500 (e : Exception).

(** [generate_image_view] for an authenticated [user]. *)
Definition generate_image_view (user pk : Z) (style : option string)
  : World -> ImageResponse * World :=
  fun w =>
    match
      (flashcard <- get_owned_FlashCard_or_404 user pk ;;
       match StyleField style with
       | inl error => ret (ImageBadRequest400 error)
       | inr validated =>
           task_id <- delay (generate_image_job (card_pk flashcard) validated) ;;
           ret (ImageAccepted202 "Image generation started" task_id
                  (card_pk flashcard))
       end) w
    with
    | (Returned r, w') => (r, w')
    | (Raised Http404, w') => (ImageNotFound404, w')
    | (Raised e, w') => (ImageServerError500 e, w')
    end.

(** A node and an edge of the graph [story_graph_view] returns (without
    their time stamps). *)
Record Node : Type := mkNode {
  node_id : option Z;
  node_content : string;
  node_image_url : option string
}.

Record Edge : Type := mkEdge {
  edge_source : option Z;
  edge_target : option Z
}.

Inductive GraphResponse : Type :=
| GraphData (nodes : list Node) (edges : list Edge)
| GraphNotFound404
| GraphServerError500 (e : Exception).

(** [get_object_or_404(Story.objects.filter(owner=user), pk=pk)]. *)
Definition get_owned_Story_or_404 (user pk : Z) : M Story :=
  try_except
    (QuerySet_get "Story"
       (fun d => filter (fun s => story_pk s =? pk)
                        (filter (fun s => owner s =? user) (stories d))))
    is_ObjectDoesNotExist
    (fun _ => raise Http404).

(** [story.flashcards.all()] and [story.connections.all()], evaluated. *)
Definition story_flashcards (story : Story) : M (list FlashCard) :=
  db_statement ;;;
  d <- read_db ;;
  ret (filter (fun c => card_story c =? story_pk story) (flashcards d)).

Definition story_connections (story : Story) : M (list CardConnection) :=
  db_statement ;;;
  d <- read_db ;;
  ret (filter (fun c => conn_story c =? story_pk story) (connections d)).

Definition node_of (card : FlashCard) : Node :=
  mkNode (card_pk card) (content_text card) (image_url card).

(** The edges of the list comprehension: [conn.source_card] and
    [conn.target_card] each fetch the card the connection refers to. *)
Fixpoint graph_edges (conns : list CardConnection) : M (list Edge) :=
  match conns with
  | [] => ret []
  | conn :: rest =>
      source <- FlashCard_objects_get (source_card conn) ;;
      target <- FlashCard_objects_get (target_card conn) ;;
      edges <- graph_edges rest ;;
      ret (mkEdge (card_pk source) (card_pk target) :: edges)
  end.

(** [story_graph_view] for an authenticated [user]. *)
Definition story_graph_view (user pk : Z) : World -> GraphResponse * World :=
  fun w =>
    match
      (story <- get_owned_Story_or_404 user pk ;;
       cards <- story_flashcards story ;;
       conns <- story_connections story ;;
       edges <- graph_edges conns ;;
       ret (GraphData (map node_of cards) edges)) w
    with
    | (Returned r, w') => (r, w')
    | (Raised Http404, w') => (GraphNotFound404, w')
    | (Raised e, w') => (GraphServerError500 e, w')
    end.

(** ** admin.py *)

(** [FlashCardAdmin.content_preview]. *)
Definition content_preview (obj : FlashCard) : string :=
  if (100 <? String.length (content_text obj))%nat
  then substring 0 100 (content_text obj) ++ "..."
  else content_text obj.

(** ** Notions the statements use *)

(** The value [generate_embedding] returns for a text. *)
Definition embedding_of (text : string) : Vector :=
  match embedding_model with
  | None => zero_vector
  | Some encode =>
      match encode text with
      | inr v => v
      | inl _ => zero_vector
      end
  end.

(** What [generate_embedding] logs for a text. *)
Definition embedding_log (text : string) : list LogRecord :=
  match embedding_model with
  | None => []
  | Some encode =>
      match encode text with
      | inr _ => []
      | inl e => [(ERROR, "Error generating embedding: " ++ str e)]
      end
  end.

(** The contract of the sentence transformer the code loads
    (all-MiniLM-L6-v2): what it encodes has 384 components. *)
Definition model_dimension_384 : Prop :=
  forall encode text v,
    embedding_model = Some encode -> encode text = inr v ->
    List.length v = 384%nat.

(** Primary keys of stored cards lie below the next value of the sequence. *)
Definition key_below (seq : Z) (c : FlashCard) : bool :=
  match card_pk c with Some k => k <? seq | None => false end.

Definition keys_below_seq (d : Database) : bool :=
  forallb (key_below (flashcard_seq d)) (flashcards d).

(** A stored embedding that is neither null nor of another dimension. *)
Definition embedded_384 (c : FlashCard) : Prop :=
  exists v, embedding c = Some v /\ List.length v = 384%nat.

Definition all_embedded (d : Database) : Prop :=
  Forall embedded_384 (flashcards d).

(** The boolean reading of "has an embedding": what [FlashCard.save]
    tests. *)
Definition has_embedding (c : FlashCard) : bool :=
  opt_list_truthy (embedding c).

(** The instance [FlashCard.save] hands to [Model.save], and what saving
    logs on the way. *)
Definition prepared (self : FlashCard) : FlashCard :=
  if has_embedding self then self
  else set_embedding self (Some (embedding_of (content_text self))).

Definition prepare_log (self : FlashCard) : list LogRecord :=
  if has_embedding self then [] else embedding_log (content_text self).

(** The card of a turn as [FlashCard.objects.create] first writes it, with
    the query embedding [q], and as the second write leaves it; the store
    with one more card. *)
Definition provisional_card (d : Database) (story_id : Z) (text : string)
  (q : Vector) : FlashCard :=
  mkFlashCard (Some (flashcard_seq d)) story_id text
    (Some (if list_truthy q then q else embedding_of text)) None.

Definition final_card (d : Database) (story_id : Z) (text : string)
  : FlashCard :=
  mkFlashCard (Some (flashcard_seq d)) story_id text
    (Some (embedding_of text)) None.

Definition store_with_card (d : Database) (c : FlashCard) : Database :=
  with_flashcards d (flashcards d ++ [c])%list (flashcard_seq d + 1).

(** [w'] has the store, the history and the queue of [w]; log records and
    the fault schedule may differ. *)
Definition same_store (w w' : World) : Prop :=
  db w' = db w /\ history w' = history w /\ queue w' = queue w.

(** The world after some more log records. *)
Definition logged (w : World) (msgs : list LogRecord) : World :=
  mkWorld (db w) (records w ++ msgs)%list (faults w) (queue w) (history w).

(** The invariant of the store: every card of the store, and of every
    state the store went through, has its 384 components. *)
Definition embedded_world (w : World) : Prop :=
  all_embedded (db w) /\ Forall all_embedded (history w).

(** [m] keeps the invariant, and what it returns satisfies [Q]. *)
Definition keeps_embedded {A : Type} (m : M A) (Q : A -> Prop) : Prop :=
  forall w, embedded_world w ->
    embedded_world (snd (m w)) /\
    forall a, fst (m w) = Returned a -> Q a.

(** An instance one may save: its embedding is missing (and will be
    generated) or has the 384 components. *)
Definition savable (self : FlashCard) : Prop :=
  has_embedding self = true -> embedded_384 self.

(** The rows the parent lookup [get(id=pid, story_id=story_id)] selects,
    and the message of the serializer when there is none. *)
Definition parent_lookup (story_id pid : Z) (d : Database) : list FlashCard :=
  filter (fun c => pk_is (card_pk c) pid && (card_story c =? story_id))
         (flashcards d).

Definition unknown_parent : string := "Parent card does not exist in this story".

(** The distance ordering is a total preorder: any two embeddings
    compare, and the comparison is transitive. *)
Definition total_preorder (leb : Vector -> Vector -> Vector -> bool) : Prop :=
  (forall q x y, leb q x y = false -> leb q y x = true) /\
  (forall q x y z, leb q x y = true -> leb q y z = true -> leb q x z = true).

(** The cards of a story, in table order. *)
Definition cards_of_story (story_id : Z) (d : Database) : list FlashCard :=
  filter (fun c => card_story c =? story_id) (flashcards d).

(** [w'] is [w] but for the part of the fault schedule consumed. *)
Definition only_faults_consumed (w w' : World) : Prop :=
  same_store w w' /\ records w' = records w.

(** The edge [story_graph_view] shows for a connection. *)
Definition edge_of (conn : CardConnection) : Edge :=
  mkEdge (Some (source_card conn)) (Some (target_card conn)).

(** The connections of a story, in table order. *)
Definition connections_of_story (story_id : Z) (d : Database)
  : list CardConnection :=
  filter (fun c => conn_story c =? story_id) (connections d).

(** One move of the system: an entry point of the program runs, or its
    surroundings act without adding or changing a stored card. *)
Inductive step : World -> World -> Prop :=
| step_turn : forall story_id prompt parent w,
    step w (snd (generate_story_segment_task story_id prompt parent w))
| step_initial : forall story_id w,
    step w (snd (create_initial_story_task story_id w))
| step_image : forall card_id style w,
    step w (snd (generate_image_task card_id style w))
| step_recalculate : forall card_id w,
    step w (snd (recalculate_embedding_task card_id w))
| step_submit : forall user story_id data w,
    step w (snd (FlashCardCreateView_create user story_id data w))
| step_update : forall instance validated w,
    In instance (flashcards (db w)) ->
    step w (snd (FlashCardUpdateSerializer_update instance validated w))
| step_create : forall story text w,
    step w (snd (FlashCard_objects_create story text None w))
| step_surroundings : forall w w',
    incl (flashcards (db w')) (flashcards (db w)) ->
    history w' = history w ->
    step w w'.

(** The worlds the system reaches from a store without cards. *)
Inductive reachable : World -> Prop :=
| reachable_start : forall w,
    flashcards (db w) = [] -> history w = [] -> reachable w
| reachable_step : forall w w',
    reachable w -> step w w' -> reachable w'.

(** ** Running the monad *)

Unset Implicit Arguments.

Lemma bind_Returned_inv (A B : Type) (m : M A) (k : A -> M B) w b w' :
  bind m k w = (Returned b, w') ->
  exists a w1, m w = (Returned a, w1) /\ k a w1 = (Returned b, w').
Proof.
  unfold bind. destruct (m w) as [[a|e] w1]; intro H.
  - exists a, w1. split; [reflexivity | exact H].
  - discriminate H.
Qed.

Lemma bind_Raised_inv (A B : Type) (m : M A) (k : A -> M B) w e w' :
  bind m k w = (Raised e, w') ->
  m w = (Raised e, w') \/
  exists a w1, m w = (Returned a, w1) /\ k a w1 = (Raised e, w').
Proof.
  unfold bind. destruct (m w) as [[a|e0] w1]; intro H.
  - right. exists a, w1. split; [reflexivity | exact H].
  - left. inversion H; subst. reflexivity.
Qed.

Lemma bind_Returned (A B : Type) (m : M A) (k : A -> M B) w a w1 :
  m w = (Returned a, w1) -> bind m k w = k a w1.
Proof. intro H. unfold bind. rewrite H. reflexivity. Qed.

Lemma bind_Raised (A B : Type) (m : M A) (k : A -> M B) w e w1 :
  m w = (Raised e, w1) -> bind m k w = (Raised e, w1).
Proof. intro H. unfold bind. rewrite H. reflexivity. Qed.

Lemma try_except_inv (A : Type) (body : M A) handles handler w o w' :
  try_except body handles handler w = (o, w') ->
  (exists a, body w = (Returned a, w') /\ o = Returned a) \/
  (exists e w1, body w = (Raised e, w1) /\ handles e = true /\
                handler e w1 = (o, w')) \/
  (exists e, body w = (Raised e, w') /\ handles e = false /\ o = Raised e).
Proof.
  unfold try_except. destruct (body w) as [[a|e] w1].
  - intro H. inversion H; subst. left. exists a. auto.
  - destruct (handles e) eqn:He; intro H.
    + right; left. exists e, w1. auto.
    + inversion H; subst. right; right. exists e. auto.
Qed.

Lemma same_store_refl w : same_store w w.
Proof. repeat split. Qed.

Lemma same_store_trans w1 w2 w3 :
  same_store w1 w2 -> same_store w2 w3 -> same_store w1 w3.
Proof.
  intros (a & b & c) (a' & b' & c'). repeat split; congruence.
Qed.

Lemma db_statement_same_store o w w' :
  db_statement w = (o, w') -> same_store w w' /\ records w' = records w.
Proof.
  unfold db_statement.
  destruct (faults w) as [|[msg|] rest]; intro H; inversion H; subst;
    repeat split.
Qed.

Lemma db_statement_no_fault w :
  faults w = [] -> db_statement w = (Returned tt, w).
Proof. intro H. unfold db_statement. rewrite H. reflexivity. Qed.

Lemma logger_eq lvl msg w :
  logger lvl msg w = (Returned tt, logged w [(lvl, msg)]).
Proof. reflexivity. Qed.

Lemma logged_same_store w msgs : same_store w (logged w msgs).
Proof. repeat split. Qed.

Lemma generate_embedding_eq text w :
  generate_embedding text w
  = (Returned (embedding_of text), logged w (embedding_log text)).
Proof.
  unfold generate_embedding, embedding_of, embedding_log, logged.
  destruct embedding_model as [encode|].
  - destruct (encode text) as [e|v]; cbn.
    + reflexivity.
    + unfold ret. rewrite app_nil_r. destruct w; reflexivity.
  - unfold ret. rewrite app_nil_r. destruct w; reflexivity.
Qed.

Lemma embedding_of_length text :
  model_dimension_384 -> List.length (embedding_of text) = 384%nat.
Proof.
  intro Hdim. unfold embedding_of.
  destruct embedding_model as [encode|] eqn:Hm.
  - destruct (encode text) as [e|v] eqn:He.
    + apply repeat_length.
    + exact (Hdim encode text v Hm He).
  - apply repeat_length.
Qed.

(** ** The embedder *)

(** C4. For every text, the empty one included, [generate_embedding]
    returns (it does not raise) a list of exactly 384 floats and touches
    nothing but the log; when the model is not loaded, or its call raises,
    the list is the zero vector [[0.0] * 384].  The dimension of what a
    loaded model encodes is the model's contract. *)
Theorem generate_embedding_always_384 :
  model_dimension_384 ->
  forall (text : string) (w : World),
  exists v msgs,
    generate_embedding text w = (Returned v, logged w msgs) /\
    List.length v = 384%nat /\
    (embedding_model = None -> v = repeat zero 384) /\
    (forall encode e,
        embedding_model = Some encode -> encode text = inl e ->
        v = repeat zero 384).
Proof.
  intros Hdim text w.
  exists (embedding_of text), (embedding_log text).
  split; [apply generate_embedding_eq|].
  split; [apply embedding_of_length; exact Hdim|].
  unfold embedding_of. split.
  - intro Hnone. rewrite Hnone. reflexivity.
  - intros encode e Hsome Hraise. rewrite Hsome, Hraise. reflexivity.
Qed.

(** ** Retrieval *)

Lemma insert_by_In leb x y l :
  In x (insert_by leb y l) -> x = y \/ In x l.
Proof.
  induction l as [|z l IH]; simpl.
  - intros [H|[]]; auto.
  - destruct (leb y z); simpl.
    + intros [H|[H|H]]; auto.
    + intros [H|H]; auto. destruct (IH H); auto.
Qed.

Lemma order_by_In leb x l : In x (order_by leb l) -> In x l.
Proof.
  induction l as [|y l IH]; simpl; [auto|].
  intro H. apply insert_by_In in H. destruct H; auto.
Qed.

Lemma insert_by_length leb y l :
  List.length (insert_by leb y l) = S (List.length l).
Proof.
  induction l as [|z l IH]; simpl; [reflexivity|].
  destruct (leb y z); simpl; [reflexivity | now rewrite IH].
Qed.

Lemma order_by_length leb l : List.length (order_by leb l) = List.length l.
Proof.
  induction l as [|y l IH]; simpl; [reflexivity|].
  now rewrite insert_by_length, IH.
Qed.

Lemma firstn_incl (A : Type) n (l : list A) x : In x (firstn n l) -> In x l.
Proof.
  revert l. induction n as [|n IH]; intros [|y l]; simpl; try tauto.
  intros [H|H]; auto.
Qed.

Lemma similar_cards_scoped d story_id query top_k c :
  In c (similar_cards d story_id query top_k) ->
  In c (flashcards d) /\ card_story c = story_id.
Proof.
  unfold similar_cards. intro H.
  apply firstn_incl, order_by_In, filter_In in H.
  destruct H as [Hin Heq]. split; [exact Hin | now apply Z.eqb_eq].
Qed.

Lemma similar_cards_length d story_id query top_k :
  (List.length (similar_cards d story_id query top_k) <= Z.to_nat top_k)%nat.
Proof. unfold similar_cards. apply firstn_le_length. Qed.

(** The search returns in every case; what it returns is the text of the
    rows of the query, or nothing when the query failed. *)
Lemma perform_rag_search_returns story_id query top_k w :
  exists cards w',
    perform_rag_search story_id query top_k w
    = (Returned (map content_text cards), w') /\
    same_store w w' /\
    (cards = [] \/ cards = similar_cards (db w) story_id query top_k).
Proof.
  unfold perform_rag_search, try_except, bind.
  destruct (top_k <? 0); cbn.
  - eexists [], _. split; [reflexivity|]. split; [repeat split | now left].
  - unfold db_statement. destruct (faults w) as [|[msg|] rest]; cbn.
    + eexists _, _. split; [reflexivity|]. split; [repeat split | now right].
    + eexists [], _. split; [reflexivity|]. split; [repeat split | now left].
    + eexists _, _. split; [reflexivity|]. split; [repeat split | now right].
Qed.

(** C1. For distinct stories S1 and S2, every query vector and every
    [top_k], the search run for S1 returns the content strings of stored
    cards of S1 only: each returned string is the text of a card of the
    store whose story is S1, hence of no card of S2; and there are at most
    [top_k] of them. *)
Theorem rag_search_stays_in_story :
  forall (S1 S2 : Z) (query : Vector) (top_k : Z) (w : World),
    S1 <> S2 ->
    exists cards w',
      perform_rag_search S1 query top_k w
      = (Returned (map content_text cards), w') /\
      db w' = db w /\
      Forall (fun c => In c (flashcards (db w)) /\
                       card_story c = S1 /\ card_story c <> S2) cards /\
      (List.length cards <= Z.to_nat top_k)%nat.
Proof.
  intros S1 S2 query top_k w Hne.
  destruct (perform_rag_search_returns S1 query top_k w)
    as (cards & w' & Hrun & (Hdb & _) & Hcards).
  exists cards, w'. split; [exact Hrun|]. split; [exact Hdb|].
  destruct Hcards as [-> | ->].
  - split; [constructor | simpl; lia].
  - split; [| apply similar_cards_length].
    apply Forall_forall. intros c Hc.
    apply similar_cards_scoped in Hc. destruct Hc as [Hin Hs].
    repeat split; [exact Hin | exact Hs | congruence].
Qed.

(** ** Context assembly *)



(** ** Lookups and the connection insert *)

Lemma QuerySet_get_cases (A : Type) model (select : Database -> list A) w :
  (exists e w', QuerySet_get model select w = (Raised e, w') /\
                same_store w w' /\ records w' = records w /\
                (is_ObjectDoesNotExist e = true -> select (db w) = [])) \/
  (exists r w', QuerySet_get model select w = (Returned r, w') /\
                same_store w w' /\ records w' = records w /\
                select (db w) = [r]).
Proof.
  assert (Hget : forall w0, same_store w w0 -> records w0 = records w ->
            (exists e w', get_one model (select (db w)) w0 = (Raised e, w') /\
                same_store w w' /\ records w' = records w /\
                (is_ObjectDoesNotExist e = true -> select (db w) = [])) \/
            (exists r w', get_one model (select (db w)) w0 = (Returned r, w') /\
                same_store w w' /\ records w' = records w /\
                select (db w) = [r])).
  { intros w0 Hs Hr. destruct (select (db w)) as [|r [|r' more]]; cbn.
    - left. exists (DoesNotExist model), w0. auto.
    - right. exists r, w0. auto.
    - left. exists (MultipleObjectsReturned model), w0.
      repeat split; try apply Hs; try exact Hr. discriminate. }
  unfold QuerySet_get, bind, db_statement, read_db.
  destruct (faults w) as [|[msg|] rest]; cbn.
  - apply Hget; [apply same_store_refl | reflexivity].
  - left. eexists _, _. split; [reflexivity|].
    repeat split. discriminate.
  - apply Hget; repeat split.
Qed.

Lemma QuerySet_get_no_fault (A : Type) model (select : Database -> list A) w :
  faults w = [] ->
  QuerySet_get model select w = get_one model (select (db w)) w.
Proof.
  intro H. unfold QuerySet_get, bind, db_statement, read_db. rewrite H.
  reflexivity.
Qed.

Lemma CardConnection_objects_create_cases story source target w :
  (exists e w', CardConnection_objects_create story source target w
                = (Raised e, w') /\
                same_store w w' /\ is_ObjectDoesNotExist e = false) \/
  (exists row w' s t,
      CardConnection_objects_create story source target w = (Returned row, w') /\
      card_pk source = Some s /\ card_pk target = Some t /\
      db w' = with_connections (db w)
                (connections (db w) ++
                 [mkCardConnection (Some (connection_seq (db w)))
                    (story_pk story) s t])%list
                (connection_seq (db w) + 1) /\
      history w' = (history w ++ [db w'])%list /\
      queue w' = queue w).
Proof.
  unfold CardConnection_objects_create.
  destruct (card_pk source) as [s|], (card_pk target) as [t|];
    try (left; eexists _, _; split; [reflexivity | repeat split]).
  unfold bind, db_statement, read_db, write_db, raise, ret.
  destruct (faults w) as [|[msg|] rest]; cbn;
    try (left; eexists _, _; split; [reflexivity | repeat split]);
    (destruct (existsb _ (connections (db w))); cbn;
     [ left; eexists _, _; split; [reflexivity | repeat split]
     | right; eexists _, _, s, t; split; [reflexivity | repeat split] ]).
Qed.

(** ** Saving a card *)

Lemma logged_nil w : logged w [] = w.
Proof. unfold logged. rewrite app_nil_r. destruct w; reflexivity. Qed.

Lemma FlashCard_save_eq self w :
  FlashCard_save self w
  = FlashCard_Model_save (prepared self) (logged w (prepare_log self)).
Proof.
  unfold FlashCard_save, prepared, prepare_log, has_embedding.
  destruct (opt_list_truthy (embedding self)); simpl.
  - unfold bind at 1, ret at 1. now rewrite logged_nil.
  - unfold bind at 1. unfold bind at 1. now rewrite generate_embedding_eq.
Qed.

Lemma prepared_has_embedding self :
  (forall text, embedding_of text <> []) ->
  has_embedding (prepared self) = true.
Proof.
  intro Hne. unfold prepared.
  destruct (has_embedding self) eqn:H; [exact H|].
  unfold has_embedding; simpl.
  specialize (Hne (content_text self)).
  destruct (embedding_of (content_text self)); [contradiction | reflexivity].
Qed.

(** [Model.save] either raises with the store as it was, or writes once. *)
Lemma FlashCard_Model_save_cases self w :
  (exists e w', FlashCard_Model_save self w = (Raised e, w') /\
                same_store w w' /\ records w' = records w) \/
  (exists w', FlashCard_Model_save self w
              = (Returned (fst (store_card (db w) self)), w') /\
              db w' = snd (store_card (db w) self) /\
              history w' = (history w ++ [db w'])%list /\
              queue w' = queue w /\ records w' = records w).
Proof.
  unfold FlashCard_Model_save, bind, db_statement, read_db, write_db, ret.
  destruct (faults w) as [|[msg|] rest]; cbn.
  - right. eexists. repeat split.
  - left. eexists _, _. repeat split.
  - right. eexists. repeat split.
Qed.

Lemma FlashCard_Model_save_no_fault self w :
  faults w = [] ->
  FlashCard_Model_save self w
  = (Returned (fst (store_card (db w) self)),
     with_db w (snd (store_card (db w) self))).
Proof.
  intro H.
  unfold FlashCard_Model_save, bind, db_statement, read_db, write_db, ret.
  rewrite H. reflexivity.
Qed.

(** The same for [FlashCard.save], which may log before it writes. *)
Lemma FlashCard_save_cases self w :
  (exists e w', FlashCard_save self w = (Raised e, w') /\ same_store w w') \/
  (exists w', FlashCard_save self w
              = (Returned (fst (store_card (db w) (prepared self))), w') /\
              db w' = snd (store_card (db w) (prepared self)) /\
              history w' = (history w ++ [db w'])%list /\
              queue w' = queue w).
Proof.
  rewrite FlashCard_save_eq.
  destruct (FlashCard_Model_save_cases (prepared self)
              (logged w (prepare_log self)))
    as [(e & w' & Hrun & Hs & _) | (w' & Hrun & Hdb & Hh & Hq & _)].
  - left. exists e, w'. split; [exact Hrun|].
    eapply same_store_trans; [apply logged_same_store | exact Hs].
  - right. exists w'. repeat split; assumption.
Qed.

(** Inserting under a fresh key appends; saving the row of the last key
    again replaces that row only. *)
Lemma key_below_not_seq seq c : key_below seq c = true -> pk_is (card_pk c) seq = false.
Proof.
  unfold key_below, pk_is. destruct (card_pk c) as [k|]; [|reflexivity].
  intro H. apply Z.ltb_lt in H. apply Z.eqb_neq. lia.
Qed.

Lemma replace_fresh_key (cards : list FlashCard) seq (self : FlashCard) :
  forallb (key_below seq) cards = true ->
  map (fun c => if pk_is (card_pk c) seq then self else c) cards = cards.
Proof.
  induction cards as [|c cards IH]; simpl; [reflexivity|].
  intro H. apply andb_true_iff in H. destruct H as [Hc Hrest].
  rewrite (key_below_not_seq _ _ Hc), (IH Hrest). reflexivity.
Qed.

Lemma store_card_insert d self :
  card_pk self = None ->
  store_card d self
  = (mkFlashCard (Some (flashcard_seq d)) (card_story self) (content_text self)
       (embedding self) (image_url self),
     with_flashcards d
       (flashcards d ++
        [mkFlashCard (Some (flashcard_seq d)) (card_story self)
           (content_text self) (embedding self) (image_url self)])%list
       (flashcard_seq d + 1)).
Proof. intro H. unfold store_card. rewrite H. reflexivity. Qed.

Lemma store_card_update_last d old row self k seq :
  flashcards d = (old ++ [row])%list ->
  card_pk row = Some k -> card_pk self = Some k ->
  forallb (key_below k) old = true ->
  flashcard_seq d = seq ->
  store_card d self = (self, with_flashcards d (old ++ [self])%list seq).
Proof.
  intros Hcards Hrow Hself Hold Hseq. unfold store_card.
  rewrite Hself, Hcards, existsb_app. simpl.
  unfold pk_is at 2. rewrite Hrow, Z.eqb_refl, orb_true_r.
  rewrite map_app, (replace_fresh_key _ _ _ Hold). simpl.
  unfold pk_is. rewrite Hrow, Z.eqb_refl, Hseq. reflexivity.
Qed.

(** ** The two writes of a turn *)

Lemma prepared_new_card story text q :
  prepared (mkFlashCard None (story_pk story) text (Some q) None)
  = mkFlashCard None (story_pk story) text
      (Some (if list_truthy q then q else embedding_of text)) None.
Proof.
  unfold prepared, has_embedding, opt_list_truthy; simpl.
  destruct (list_truthy q); reflexivity.
Qed.

Lemma prepared_corrected_card d story_id text q :
  prepared (set_embedding (provisional_card d story_id text q)
              (Some (embedding_of text)))
  = final_card d story_id text.
Proof.
  unfold prepared, has_embedding, opt_list_truthy; simpl.
  destruct (list_truthy (embedding_of text)); reflexivity.
Qed.

(** Lines 38-47 either fail before the first write, or fail between the
    two writes and leave the provisional card, or make both writes. *)
Lemma persist_segment_cases story text q w :
  keys_below_seq (db w) = true ->
  (exists e w', persist_segment story text q w = (Raised e, w') /\
                same_store w w') \/
  (exists e w', persist_segment story text q w = (Raised e, w') /\
                db w' = store_with_card (db w) (provisional_card (db w) (story_pk story) text q) /\
                history w' = (history w ++ [db w'])%list /\
                queue w' = queue w) \/
  (exists w', persist_segment story text q w
              = (Returned (final_card (db w) (story_pk story) text), w') /\
              db w' = store_with_card (db w) (final_card (db w) (story_pk story) text) /\
              history w'
              = (history w ++
                 [store_with_card (db w) (provisional_card (db w) (story_pk story) text q);
                  db w'])%list /\
              queue w' = queue w).
Proof.
  intro Hkeys. unfold persist_segment, FlashCard_objects_create.
  destruct (FlashCard_save_cases
              (mkFlashCard None (story_pk story) text (Some q) None) w)
    as [(e & w1 & Hrun & Hs) | (w1 & Hrun & Hdb & Hh & Hq)].
  - left. exists e, w1. split; [|exact Hs].
    apply bind_Raised. exact Hrun.
  - right.
    rewrite prepared_new_card, store_card_insert in Hrun, Hdb by reflexivity.
    cbn [fst snd card_story content_text embedding image_url] in Hrun, Hdb.
    fold (provisional_card (db w) (story_pk story) text q) in Hrun, Hdb.
    fold (store_with_card (db w) (provisional_card (db w) (story_pk story) text q)) in Hdb.
    rewrite (bind_Returned _ _ _ _ _ _ _ Hrun).
    rewrite (bind_Returned _ _ _ _ _ _ _ (generate_embedding_eq text w1)).
    destruct (FlashCard_save_cases
                (set_embedding (provisional_card (db w) (story_pk story) text q)
                   (Some (embedding_of text)))
                (logged w1 (embedding_log text)))
      as [(e & w2 & Hrun2 & Hs2) | (w2 & Hrun2 & Hdb2 & Hh2 & Hq2)].
    + left. exists e, w2. split; [exact Hrun2|].
      destruct Hs2 as (Hd & Hhi & Hqu). cbn in Hd, Hhi, Hqu.
      rewrite Hd, Hhi, Hqu. repeat split; congruence.
    + right. exists w2.
      rewrite prepared_corrected_card in Hrun2, Hdb2.
      cbn [db logged] in Hrun2, Hdb2.
      rewrite (store_card_update_last (db w1) (flashcards (db w))
                 (provisional_card (db w) (story_pk story) text q)
                 (final_card (db w) (story_pk story) text)
                 (flashcard_seq (db w)) (flashcard_seq (db w) + 1))
        in Hrun2, Hdb2;
        try solve [ rewrite Hdb; reflexivity | reflexivity | exact Hkeys ].
      cbn [fst snd] in Hrun2, Hdb2.
      split; [exact Hrun2|].
      assert (Hd2 : db w2 = store_with_card (db w) (final_card (db w) (story_pk story) text)).
      { rewrite Hdb2, Hdb. reflexivity. }
      split; [exact Hd2|].
      split; [| cbn in Hq2; congruence].
      rewrite Hh2. cbn [history logged]. rewrite Hh, Hdb, <- app_assoc.
      reflexivity.
Qed.

(** ** The turn, case by case *)

Lemma retrieve_context_returns story_id prompt w :
  exists segs w',
    retrieve_context story_id prompt w
    = (Returned (embedding_of prompt, assemble_context segs), w') /\
    same_store w w'.
Proof.
  destruct (perform_rag_search_returns story_id (embedding_of prompt) 5
              (logged w (embedding_log prompt)))
    as (cards & w' & Hrun & Hs & _).
  exists (map content_text cards), w'. split.
  - unfold retrieve_context.
    rewrite (bind_Returned _ _ _ _ _ _ _ (generate_embedding_eq prompt w)).
    rewrite (bind_Returned _ _ _ _ _ _ _ Hrun). reflexivity.
  - eapply same_store_trans; [apply logged_same_store | exact Hs].
Qed.

Lemma link_parent_cases story story_id parent new_card w :
  (exists o w', link_parent story story_id parent new_card w = (o, w') /\
                same_store w w') \/
  (exists w' s t,
      link_parent story story_id parent new_card w = (Returned tt, w') /\
      card_pk new_card = Some t /\
      db w' = with_connections (db w)
                (connections (db w) ++
                 [mkCardConnection (Some (connection_seq (db w)))
                    (story_pk story) s t])%list
                (connection_seq (db w) + 1) /\
      history w' = (history w ++ [db w'])%list /\
      queue w' = queue w).
Proof.
  unfold link_parent.
  destruct parent as [pid|];
    [|left; eexists _, _; split; [reflexivity | apply same_store_refl]].
  destruct (pid =? 0);
    [left; eexists _, _; split; [reflexivity | apply same_store_refl]|].
  unfold try_except.
  destruct (QuerySet_get_cases FlashCard "FlashCard"
              (fun d => filter (fun c => pk_is (card_pk c) pid
                                         && (card_story c =? story_pk story))
                               (flashcards d)) w)
    as [(e & w1 & Hrun & Hs & _) | (parent_card & w1 & Hrun & Hs & _)];
    unfold FlashCard_objects_get_in_story.
  - rewrite (bind_Raised _ _ _ _ _ _ _ Hrun).
    left. destruct (is_ObjectDoesNotExist e).
    + eexists _, _. split; [reflexivity|].
      eapply same_store_trans; [exact Hs | apply logged_same_store].
    + eexists _, _. split; [reflexivity | exact Hs].
  - rewrite (bind_Returned _ _ _ _ _ _ _ Hrun).
    destruct (CardConnection_objects_create_cases story parent_card new_card w1)
      as [(e & w2 & Hrun2 & Hs2 & He)
         | (row & w2 & s & t & Hrun2 & _ & Ht & Hdb & Hh & Hq)].
    + rewrite (bind_Raised _ _ _ _ _ _ _ Hrun2), He.
      left. eexists _, _. split; [reflexivity|].
      eapply same_store_trans; eassumption.
    + rewrite (bind_Returned _ _ _ _ _ _ _ Hrun2).
      right. exists w2, s, t. split; [reflexivity|].
      destruct Hs as (Hd1 & Hh1 & Hq1).
      rewrite Hdb, Hh, Hq, Hdb, Hd1, Hh1, Hq1. auto.
Qed.

Lemma task_returns_body_result story_id prompt parent w r w1 :
  generate_story_segment_body story_id prompt parent w = (Returned r, w1) ->
  generate_story_segment_task story_id prompt parent w = (Returned r, w1).
Proof.
  intro H. unfold generate_story_segment_task, try_except. now rewrite H.
Qed.

Lemma task_reports_failure story_id prompt parent w e w1 :
  generate_story_segment_body story_id prompt parent w = (Raised e, w1) ->
  generate_story_segment_task story_id prompt parent w
  = (Returned (TaskFailed (str e)),
     logged w1 [(ERROR, "Error generating story segment for story "
                        ++ str_int story_id ++ ": " ++ str e)]).
Proof.
  intro H. unfold generate_story_segment_task, try_except. now rewrite H.
Qed.

Lemma filter_singleton_holds (A : Type) (f : A -> bool) l x :
  filter f l = [x] -> f x = true /\ In x l.
Proof.
  intro H. assert (Hin : In x (filter f l)) by (rewrite H; now left).
  apply filter_In in Hin. tauto.
Qed.

Lemma turn_body_cases story_id prompt parent w o w' :
  keys_below_seq (db w) = true ->
  generate_story_segment_body story_id prompt parent w = (o, w') ->
  (exists e, o = Raised e /\ same_store w w') \/
  exists segs,
    let text := generate_story_segment (assemble_context segs) prompt in
    let k := flashcard_seq (db w) in
    let d1 := store_with_card (db w)
                (provisional_card (db w) story_id text (embedding_of prompt)) in
    let d2 := store_with_card (db w) (final_card (db w) story_id text) in
    queue w' = queue w /\
    ((exists e, o = Raised e /\ db w' = d1 /\
                history w' = (history w ++ [d1])%list) \/
     (exists e, o = Raised e /\ db w' = d2 /\
                history w' = (history w ++ [d1; d2])%list) \/
     (o = Returned (SegmentGenerated (Some k) text) /\ db w' = d2 /\
      history w' = (history w ++ [d1; d2])%list) \/
     (o = Returned (SegmentGenerated (Some k) text) /\
      exists s,
        db w' = with_connections d2
                  (connections d2 ++
                   [mkCardConnection (Some (connection_seq d2)) story_id s k])%list
                  (connection_seq d2 + 1) /\
        history w' = (history w ++ [d1; d2; db w'])%list)).
Proof.
  intros Hkeys H. unfold generate_story_segment_body, Story_objects_get in H.
  destruct (QuerySet_get_cases Story "Story"
              (fun d => filter (fun s => story_pk s =? story_id) (stories d)) w)
    as [(e & w1 & Hrun & Hs & _) | (story & w1 & Hrun & Hs & _ & Hsel)].
  { rewrite (bind_Raised _ _ _ _ _ _ _ Hrun) in H. inversion H; subst o w'.
    left. exists e. auto. }
  rewrite (bind_Returned _ _ _ _ _ _ _ Hrun) in H.
  apply filter_singleton_holds in Hsel. destruct Hsel as [Hpk _].
  apply Z.eqb_eq in Hpk. subst story_id.
  destruct (retrieve_context_returns (story_pk story) prompt w1)
    as (segs & w2 & Hr & Hs2).
  rewrite (bind_Returned _ _ _ _ _ _ _ Hr) in H. cbn [fst snd] in H.
  assert (Hs02 : same_store w w2) by (eapply same_store_trans; eassumption).
  destruct Hs02 as (Hd & Hh & Hq).
  assert (Hkeys2 : keys_below_seq (db w2) = true) by (rewrite Hd; exact Hkeys).
  destruct (persist_segment_cases story
              (generate_story_segment (assemble_context segs) prompt)
              (embedding_of prompt) w2 Hkeys2)
    as [(e & w3 & Hp & Hs3)
       | [(e & w3 & Hp & Hdb3 & Hh3 & Hq3) | (w3 & Hp & Hdb3 & Hh3 & Hq3)]].
  { rewrite (bind_Raised _ _ _ _ _ _ _ Hp) in H. inversion H; subst o w'.
    left. exists e. split; [reflexivity|].
    eapply same_store_trans; [|exact Hs3]. repeat split; assumption. }
  { rewrite (bind_Raised _ _ _ _ _ _ _ Hp) in H. inversion H; subst o w'.
    right. exists segs. cbv zeta. split; [congruence|].
    left. exists e. rewrite Hh3, Hdb3, Hd, Hh. auto. }
  rewrite (bind_Returned _ _ _ _ _ _ _ Hp) in H.
  rewrite Hd in Hp, Hdb3, Hh3, H.
  right. exists segs. cbv zeta. 
  destruct (link_parent_cases story (story_pk story) parent
              (final_card (db w) (story_pk story)
                 (generate_story_segment (assemble_context segs) prompt)) w3)
    as [(o1 & w4 & Hl & Hd4 & Hh4 & Hq4)
       | (w4 & s & t & Hl & Ht & Hdb4 & Hh4 & Hq4)].
  - destruct o1 as [[]|e].
    + rewrite (bind_Returned _ _ _ _ _ _ _ Hl) in H.
      unfold bind, logger, ret in H. inversion H; subst o w'. cbn.
      split; [congruence|]. right; right; left.
      rewrite Hd4, Hh4, Hh3, Hdb3, Hh. auto.
    + rewrite (bind_Raised _ _ _ _ _ _ _ Hl) in H. inversion H; subst o w'.
      split; [congruence|]. right; left. exists e.
      rewrite Hd4, Hh4, Hh3, Hdb3, Hh. auto.
  - rewrite (bind_Returned _ _ _ _ _ _ _ Hl) in H.
    unfold bind, logger, ret in H. inversion H; subst o w'. cbn.
    split; [congruence|]. right; right; right.
    split; [reflexivity|]. exists s.
    cbn in Ht. inversion Ht; subst t.
    rewrite Hh4, Hdb4, Hh3, Hdb3, Hh, <- app_assoc. auto.
Qed.

(** Keys below the sequence: an invariant of the turn. *)

Lemma key_below_succ seq c : key_below seq c = true -> key_below (seq + 1) c = true.
Proof.
  unfold key_below. destruct (card_pk c) as [k|]; [|auto].
  intro H. apply Z.ltb_lt in H. apply Z.ltb_lt. lia.
Qed.

Lemma store_with_card_keys d c :
  keys_below_seq d = true -> card_pk c = Some (flashcard_seq d) ->
  keys_below_seq (store_with_card d c) = true.
Proof.
  intros Hd Hc. unfold keys_below_seq, store_with_card in *. cbn.
  rewrite forallb_app. apply andb_true_iff. split.
  - rewrite forallb_forall in *. intros x Hx. apply key_below_succ, Hd, Hx.
  - cbn. unfold key_below. rewrite Hc.
    rewrite andb_true_r. apply Z.ltb_lt. lia.
Qed.

Lemma turn_task_keeps_keys_below_seq story_id prompt parent w :
  keys_below_seq (db w) = true ->
  keys_below_seq
    (db (snd (generate_story_segment_task story_id prompt parent w))) = true.
Proof.
  intro Hkeys.
  assert (Hbody : forall o w',
             generate_story_segment_body story_id prompt parent w = (o, w') ->
             keys_below_seq (db w') = true).
  { intros o w' Hb.
    destruct (turn_body_cases _ _ _ _ _ _ Hkeys Hb)
      as [(e & _ & Hd & _) | (segs & _ & Hcases)]; [now rewrite Hd|].
    cbv zeta in Hcases.
    destruct Hcases
      as [(e & _ & Hdb & _) | [(e & _ & Hdb & _)
         | [(_ & Hdb & _) | (_ & s & Hdb & _)]]];
      rewrite Hdb; now apply store_with_card_keys. }
  destruct (generate_story_segment_body story_id prompt parent w)
    as [[r|e] w1] eqn:Hb.
  - rewrite (task_returns_body_result _ _ _ _ _ _ Hb). exact (Hbody _ _ eq_refl).
  - rewrite (task_reports_failure _ _ _ _ _ _ Hb). exact (Hbody _ _ eq_refl).
Qed.

Lemma list_truthy_of_length (A : Type) (l : list A) n :
  List.length l = S n -> list_truthy l = true.
Proof. destruct l; [discriminate | reflexivity]. Qed.

(** C2. When the turn succeeds, the store went through exactly these
    states for the new card: first the card with the embedding of the
    prompt (the query embedding), then the same card with the embedding of
    its own generated text, which is the state that stays.  In every state
    written the card has an embedding of 384 components; later writes of
    the run (the connection) leave the cards alone. *)
Theorem turn_embedding_written_twice :
  forall (story_id : Z) (prompt : string) (parent : option Z) (w : World)
         (card_id : option Z) (text : string) (w' : World),
    model_dimension_384 ->
    keys_below_seq (db w) = true ->
    generate_story_segment_task story_id prompt parent w
    = (Returned (SegmentGenerated card_id text), w') ->
    exists d1 d2 rest,
      history w' = (history w ++ d1 :: d2 :: rest)%list /\
      flashcards d1
      = (flashcards (db w) ++
         [mkFlashCard card_id story_id text (Some (embedding_of prompt)) None])%list /\
      flashcards d2
      = (flashcards (db w) ++
         [mkFlashCard card_id story_id text (Some (embedding_of text)) None])%list /\
      Forall (fun d => flashcards d = flashcards d2) rest /\
      flashcards (db w') = flashcards d2 /\
      card_id = Some (flashcard_seq (db w)) /\
      List.length (embedding_of prompt) = 384%nat /\
      List.length (embedding_of text) = 384%nat /\
      (forall t w0, fst (generate_embedding t w0) = Returned (embedding_of t)).
Proof.
  intros story_id prompt parent w card_id text w' Hdim Hkeys Hrun.
  assert (Hq : list_truthy (embedding_of prompt) = true).
  { eapply list_truthy_of_length. apply embedding_of_length, Hdim. }
  assert (Hbody : generate_story_segment_body story_id prompt parent w
                  = (Returned (SegmentGenerated card_id text), w')).
  { destruct (generate_story_segment_body story_id prompt parent w)
      as [[r|e] w1] eqn:Hb.
    - rewrite (task_returns_body_result _ _ _ _ _ _ Hb) in Hrun. exact Hrun.
    - rewrite (task_reports_failure _ _ _ _ _ _ Hb) in Hrun. discriminate Hrun. }
  destruct (turn_body_cases _ _ _ _ _ _ Hkeys Hbody)
    as [(e & He & _) | (segs & _ & Hcases)]; [discriminate He|].
  cbv zeta in Hcases.
  destruct Hcases as [(e & He & _) | [(e & He & _) | [(Ho & Hdb & Hh) | (Ho & s & Hdb & Hh)]]];
    try discriminate He; inversion Ho; subst card_id text.
  - eexists _, _, []. split; [exact Hh|].
    unfold provisional_card. rewrite Hq, Hdb. cbn.
    repeat split; auto using embedding_of_length.
    intros t w0. now rewrite generate_embedding_eq.
  - eexists _, _, [db w']. split; [exact Hh|].
    unfold provisional_card. rewrite Hq, Hdb. cbn.
    repeat split; auto using embedding_of_length.
    intros t w0. now rewrite generate_embedding_eq.
Qed.

(** C6. The turn task returns for every input: it never raises.  Whatever
    its body raises becomes the failure result carrying [str(e)], and the
    handler only logs: the store, the history and the queue stay as the
    failing step left them, so what was written before the failure is kept
    and nothing is written after it.  A failed turn has created no
    connection and at most the one card. *)
Theorem turn_task_never_raises :
  forall (story_id : Z) (prompt : string) (parent : option Z) (w : World),
  exists r w',
    generate_story_segment_task story_id prompt parent w = (Returned r, w') /\
    (forall e w1,
        generate_story_segment_body story_id prompt parent w = (Raised e, w1) ->
        r = TaskFailed (str e) /\ same_store w1 w' /\
        records w'
        = (records w1 ++
           [(ERROR, ("Error generating story segment for story "
                     ++ str_int story_id ++ ": " ++ str e)%string)])%list) /\
    (forall r1 w1,
        generate_story_segment_body story_id prompt parent w = (Returned r1, w1) ->
        r = r1 /\ w' = w1 /\ success r = true) /\
    (keys_below_seq (db w) = true -> success r = false ->
     connections (db w') = connections (db w) /\
     ((db w' = db w /\ history w' = history w) \/
      exists c,
        db w' = store_with_card (db w) c /\
        card_story c = story_id /\
        card_pk c = Some (flashcard_seq (db w)) /\
        (history w' = (history w ++ [db w'])%list \/
         exists d1, history w' = (history w ++ [d1; db w'])%list))).
Proof.
  intros story_id prompt parent w.
  destruct (generate_story_segment_body story_id prompt parent w)
    as [[r|e] w1] eqn:Hb.
  - exists r, w1. split; [now apply task_returns_body_result|].
    split; [intros e w2 H; discriminate H|].
    assert (Hr : success r = true).
    { unfold generate_story_segment_body in Hb.
      repeat (apply bind_Returned_inv in Hb; destruct Hb as (? & ? & _ & Hb)).
      inversion Hb. reflexivity. }
    split.
    + intros r1 w2 H. inversion H; subst. auto.
    + intros _ Hfail. rewrite Hr in Hfail. discriminate Hfail.
  - eexists _, _. split; [apply task_reports_failure; exact Hb|].
    split; [|split].
    + intros e' w2 H. inversion H; subst. repeat split.
    + intros r1 w2 H. discriminate H.
    + intros Hkeys _. cbn [db history logged].
      destruct (turn_body_cases _ _ _ _ _ _ Hkeys Hb)
        as [(e' & _ & Hd & Hh & _) | (segs & _ & Hcases)].
      { rewrite Hd. split; [reflexivity|]. left. auto. }
      cbv zeta in Hcases.
      destruct Hcases
        as [(e' & _ & Hdb & Hh) | [(e' & _ & Hdb & Hh)
           | [(Ho & _) | (Ho & _)]]]; try discriminate Ho.
      * rewrite Hdb. split; [reflexivity|]. right.
        eexists. split; [reflexivity|]. repeat split. left. exact Hh.
      * rewrite Hdb. split; [reflexivity|]. right.
        eexists. split; [reflexivity|]. repeat split. right.
        eexists. exact Hh.
Qed.

(** ** The turn when no statement fails *)

Lemma perform_rag_search_no_fault story_id query top_k w :
  faults w = [] -> 0 <= top_k ->
  perform_rag_search story_id query top_k w
  = (Returned (map content_text (similar_cards (db w) story_id query top_k)), w).
Proof.
  intros Hf Hk. unfold perform_rag_search, try_except, bind, db_statement, read_db.
  destruct (top_k <? 0) eqn:Hneg; [apply Z.ltb_lt in Hneg; lia|].
  cbn. rewrite Hf. reflexivity.
Qed.

Lemma FlashCard_save_no_fault self w :
  faults w = [] ->
  FlashCard_save self w
  = (Returned (fst (store_card (db w) (prepared self))),
     with_db (logged w (prepare_log self))
             (snd (store_card (db w) (prepared self)))).
Proof.
  intro Hf. rewrite FlashCard_save_eq.
  now rewrite FlashCard_Model_save_no_fault.
Qed.

Lemma persist_segment_no_fault story text q w :
  faults w = [] ->
  keys_below_seq (db w) = true ->
  exists w',
    persist_segment story text q w
    = (Returned (final_card (db w) (story_pk story) text), w') /\
    db w' = store_with_card (db w) (final_card (db w) (story_pk story) text) /\
    faults w' = [] /\
    queue w' = queue w /\
    history w'
    = (history w ++
       [store_with_card (db w)
          (provisional_card (db w) (story_pk story) text q);
        db w'])%list.
Proof.
  intros Hf Hkeys.
  destruct (persist_segment_cases story text q w Hkeys)
    as [(e & w1 & Hp & _) | [(e & w1 & Hp & _) | (w1 & Hp & Hdb & Hh & Hq)]].
  1, 2: exfalso; revert Hp;
    unfold persist_segment, FlashCard_objects_create;
    rewrite (bind_Returned _ _ _ _ _ _ _ (FlashCard_save_no_fault _ w Hf));
    rewrite (bind_Returned _ _ _ _ _ _ _ (generate_embedding_eq _ _));
    rewrite FlashCard_save_no_fault by exact Hf; discriminate.
  exists w1. repeat split; try assumption.
  revert Hp. unfold persist_segment, FlashCard_objects_create.
  rewrite (bind_Returned _ _ _ _ _ _ _ (FlashCard_save_no_fault _ w Hf)).
  rewrite (bind_Returned _ _ _ _ _ _ _ (generate_embedding_eq _ _)).
  rewrite FlashCard_save_no_fault by exact Hf.
  intro Hp. inversion Hp. cbn. exact Hf.
Qed.




(** ** The image task *)

Lemma filter_singleton_unique (A : Type) (f : A -> bool) l x c :
  filter f l = [x] -> In c l -> f c = true -> c = x.
Proof.
  intros H Hin Hf.
  assert (Hc : In c (filter f l)) by (apply filter_In; auto).
  rewrite H in Hc. destruct Hc as [Hc|[]]. now symmetry.
Qed.

Lemma existsb_of_In (A : Type) (f : A -> bool) l x :
  In x l -> f x = true -> existsb f l = true.
Proof. intros Hin Hf. apply existsb_exists. exists x. auto. Qed.


(** ** The embedding invariant *)

Section Embedded.

Hypothesis model_contract : model_dimension_384.

Lemma keeps_ret (A : Type) (a : A) (Q : A -> Prop) :
  Q a -> keeps_embedded (ret a) Q.
Proof.
  intros Hq w Hw. split; [exact Hw|].
  intros a0 H. inversion H. now subst.
Qed.

Lemma keeps_raise (A : Type) (e : Exception) (Q : A -> Prop) :
  keeps_embedded (raise e) Q.
Proof. intros w Hw. split; [exact Hw|]. intros a H. discriminate H. Qed.

Lemma keeps_bind (A B : Type) (m : M A) (k : A -> M B) Q R :
  keeps_embedded m Q ->
  (forall a, Q a -> keeps_embedded (k a) R) ->
  keeps_embedded (bind m k) R.
Proof.
  intros Hm Hk w Hw. destruct (Hm w Hw) as [Hw1 Ha].
  unfold bind. destruct (m w) as [[a|e] w1]; cbn in *.
  - apply (Hk a (Ha a eq_refl) w1 Hw1).
  - split; [exact Hw1|]. intros b H. discriminate H.
Qed.

Lemma keeps_try (A : Type) (body : M A) handles handler Q :
  keeps_embedded body Q ->
  (forall e, keeps_embedded (handler e) Q) ->
  keeps_embedded (try_except body handles handler) Q.
Proof.
  intros Hb Hh w Hw. destruct (Hb w Hw) as [Hw1 Ha].
  unfold try_except. destruct (body w) as [[a|e] w1]; cbn in *.
  - split; [exact Hw1 | exact Ha].
  - destruct (handles e).
    + apply (Hh e w1 Hw1).
    + split; [exact Hw1|]. intros b H. discriminate H.
Qed.

Lemma keeps_weaken (A : Type) (m : M A) (Q R : A -> Prop) :
  keeps_embedded m Q -> (forall a, Q a -> R a) -> keeps_embedded m R.
Proof.
  intros Hm Hqr w Hw. destruct (Hm w Hw) as [Hw1 Ha].
  split; [exact Hw1|]. intros a H. apply Hqr, Ha, H.
Qed.

Lemma keeps_without_write (A : Type) (m : M A) :
  (forall w, db (snd (m w)) = db w /\ history (snd (m w)) = history w) ->
  keeps_embedded m (fun _ => True).
Proof.
  intros Hs w [Hd Hh]. destruct (Hs w) as (Hdb & Hhist).
  split; [|auto]. unfold embedded_world. now rewrite Hdb, Hhist.
Qed.

Lemma keeps_same_store (A : Type) (m : M A) :
  (forall w, same_store w (snd (m w))) ->
  keeps_embedded m (fun _ => True).
Proof.
  intro Hs. apply keeps_without_write. intro w.
  destruct (Hs w) as (Hdb & Hhist & _). auto.
Qed.

Lemma keeps_logger lvl msg : keeps_embedded (logger lvl msg) (fun _ => True).
Proof. apply keeps_same_store. intro w. repeat split. Qed.

Lemma keeps_delay t : keeps_embedded (delay t) (fun _ => True).
Proof. apply keeps_without_write. intro w. split; reflexivity. Qed.

Lemma keeps_db_statement : keeps_embedded db_statement (fun _ => True).
Proof.
  apply keeps_same_store. intro w.
  destruct (db_statement w) as [o w'] eqn:H.
  apply db_statement_same_store in H. apply H.
Qed.

Lemma keeps_read_db : keeps_embedded read_db all_embedded.
Proof.
  intros w Hw. split; [exact Hw|].
  intros d H. inversion H. apply Hw.
Qed.

Lemma keeps_write_db d :
  all_embedded d -> keeps_embedded (write_db d) (fun _ => True).
Proof.
  intros Hd w [_ Hh]. split; [|auto]. split; [exact Hd|].
  cbn. apply Forall_app. split; [exact Hh | now constructor].
Qed.

Lemma keeps_get_one (A : Type) model (rows : list A) (Q : A -> Prop) :
  Forall Q rows -> keeps_embedded (get_one model rows) Q.
Proof.
  intro Hrows. destruct rows as [|r [|r' more]]; cbn.
  - apply keeps_raise.
  - apply keeps_ret. now inversion Hrows.
  - apply keeps_raise.
Qed.

Lemma keeps_QuerySet_get (A : Type) model (select : Database -> list A)
  (Q : A -> Prop) :
  (forall d, all_embedded d -> Forall Q (select d)) ->
  keeps_embedded (QuerySet_get model select) Q.
Proof.
  intro Hsel. unfold QuerySet_get.
  eapply keeps_bind; [apply keeps_db_statement|]. intros _ _.
  eapply keeps_bind; [apply keeps_read_db|]. intros d Hd.
  apply keeps_get_one, Hsel, Hd.
Qed.

Lemma Forall_filter (A : Type) (P : A -> Prop) f (l : list A) :
  Forall P l -> Forall P (filter f l).
Proof.
  intro H. apply Forall_forall. intros x Hx. apply filter_In in Hx.
  rewrite Forall_forall in H. now apply H.
Qed.

Lemma keeps_get_card model f :
  keeps_embedded
    (QuerySet_get model (fun d => filter f (flashcards d))) embedded_384.
Proof.
  apply keeps_QuerySet_get. intros d Hd. now apply Forall_filter.
Qed.

Lemma keeps_get_story model f :
  keeps_embedded
    (QuerySet_get model (fun d => filter f (stories d))) (fun _ => True).
Proof.
  apply keeps_QuerySet_get. intros d _. apply Forall_forall. auto.
Qed.

Lemma keeps_generate_embedding text :
  keeps_embedded (generate_embedding text)
    (fun v => List.length v = 384%nat).
Proof.
  intros w Hw. rewrite generate_embedding_eq. cbn. split.
  - destruct Hw. split; assumption.
  - intros v H. inversion H. now apply embedding_of_length.
Qed.

Lemma store_card_embedded d self :
  all_embedded d -> embedded_384 self ->
  all_embedded (snd (store_card d self)) /\ embedded_384 (fst (store_card d self)).
Proof.
  intros Hd Hself. unfold store_card, all_embedded in *.
  destruct (card_pk self) as [k|]; cbn.
  - destruct (existsb _ (flashcards d)); cbn; split; try exact Hself.
    + apply Forall_forall. intros c Hc. apply in_map_iff in Hc.
      destruct Hc as (c0 & Hc0 & Hin).
      destruct (pk_is (card_pk c0) k); subst c; [exact Hself|].
      rewrite Forall_forall in Hd. now apply Hd.
    + apply Forall_app. split; [exact Hd | now constructor].
  - assert (Hrow : embedded_384
                     (mkFlashCard (Some (flashcard_seq d)) (card_story self)
                        (content_text self) (embedding self) (image_url self))).
    { exact Hself. }
    split; [|exact Hrow].
    apply Forall_app. split; [exact Hd | now constructor].
Qed.

Lemma keeps_Model_save self :
  embedded_384 self ->
  keeps_embedded (FlashCard_Model_save self) embedded_384.
Proof.
  intro Hself. unfold FlashCard_Model_save.
  eapply keeps_bind; [apply keeps_db_statement|]. intros _ _.
  eapply keeps_bind; [apply keeps_read_db|]. intros d Hd.
  destruct (store_card_embedded d self Hd Hself) as [Hd' Hrow].
  eapply keeps_bind; [apply keeps_write_db, Hd'|]. intros _ _.
  apply keeps_ret, Hrow.
Qed.

Lemma keeps_FlashCard_save self :
  savable self -> keeps_embedded (FlashCard_save self) embedded_384.
Proof.
  intro Hs. unfold FlashCard_save.
  eapply keeps_bind with (Q := embedded_384).
  - fold (has_embedding self). destruct (has_embedding self) eqn:Hh; cbn.
    + apply keeps_ret, Hs, Hh.
    + eapply keeps_bind; [apply keeps_generate_embedding|].
      intros v Hv. apply keeps_ret. exists v. auto.
  - intros c Hc. apply keeps_Model_save, Hc.
Qed.

Lemma savable_embedded c : embedded_384 c -> savable c.
Proof. intros H _. exact H. Qed.

Lemma savable_vector c v :
  List.length v = 384%nat -> savable (set_embedding c (Some v)).
Proof. intros H _. exists v. auto. Qed.

Lemma savable_none story text : savable (mkFlashCard None story text None None).
Proof. intro H. discriminate H. Qed.

Lemma keeps_perform_rag_search story_id q k :
  keeps_embedded (perform_rag_search story_id q k) (fun _ => True).
Proof.
  apply keeps_same_store. intro w.
  destruct (perform_rag_search_returns story_id q k w) as (cs & w' & H & Hs & _).
  rewrite H. exact Hs.
Qed.

Lemma keeps_connection_create story source target :
  keeps_embedded (CardConnection_objects_create story source target)
    (fun _ => True).
Proof.
  unfold CardConnection_objects_create.
  destruct (card_pk source) as [s|], (card_pk target) as [t|];
    try apply keeps_raise.
  eapply keeps_bind; [apply keeps_db_statement|]. intros _ _.
  eapply keeps_bind; [apply keeps_read_db|]. intros d Hd.
  destruct (existsb _ (connections d)); [apply keeps_raise|].
  eapply keeps_bind; [apply keeps_write_db; exact Hd|]. intros _ _.
  now apply keeps_ret.
Qed.

Lemma keeps_retrieve_context story_id prompt :
  keeps_embedded (retrieve_context story_id prompt)
    (fun qc => List.length (fst qc) = 384%nat).
Proof.
  unfold retrieve_context.
  eapply keeps_bind; [apply keeps_generate_embedding|]. intros q Hq.
  eapply keeps_bind; [apply keeps_perform_rag_search|]. intros segs _.
  apply keeps_ret. exact Hq.
Qed.

Lemma keeps_objects_create story text emb :
  savable (mkFlashCard None (story_pk story) text emb None) ->
  keeps_embedded (FlashCard_objects_create story text emb) embedded_384.
Proof. intro H. unfold FlashCard_objects_create. now apply keeps_FlashCard_save. Qed.

Lemma keeps_persist_segment story text q :
  List.length q = 384%nat ->
  keeps_embedded (persist_segment story text q) embedded_384.
Proof.
  intro Hq. unfold persist_segment.
  eapply keeps_bind.
  { apply keeps_objects_create. intros _. exists q. auto. }
  intros new_card _.
  eapply keeps_bind; [apply keeps_generate_embedding|]. intros e He.
  apply keeps_FlashCard_save, savable_vector, He.
Qed.

Lemma keeps_link_parent story story_id parent new_card :
  keeps_embedded (link_parent story story_id parent new_card) (fun _ => True).
Proof.
  unfold link_parent. destruct parent as [pid|]; [|now apply keeps_ret].
  destruct (pid =? 0); [now apply keeps_ret|].
  apply keeps_try; [|intro e; apply keeps_logger].
  eapply keeps_bind; [apply keeps_get_card|]. intros parent_card _.
  eapply keeps_bind; [apply keeps_connection_create|]. intros _ _.
  now apply keeps_ret.
Qed.

Lemma keeps_failure_handler (msg : Exception -> string) e :
  keeps_embedded (logger ERROR (msg e) ;;; ret (TaskFailed (str e)))
    (fun _ => True).
Proof.
  eapply keeps_bind; [apply keeps_logger|]. intros _ _. now apply keeps_ret.
Qed.

Lemma keeps_turn_task story_id prompt parent :
  keeps_embedded (generate_story_segment_task story_id prompt parent)
    (fun _ => True).
Proof.
  unfold generate_story_segment_task.
  apply keeps_try;
    [| intro e;
       apply (keeps_failure_handler
                (fun e => "Error generating story segment for story "
                          ++ str_int story_id ++ ": " ++ str e))].
  unfold generate_story_segment_body, Story_objects_get.
  eapply keeps_bind; [apply keeps_get_story|]. intros story _.
  eapply keeps_bind; [apply keeps_retrieve_context|]. intros qc Hq.
  eapply keeps_bind; [apply keeps_persist_segment, Hq|]. intros new_card _.
  eapply keeps_bind; [apply keeps_link_parent|]. intros _ _.
  eapply keeps_bind; [apply keeps_logger|]. intros _ _.
  now apply keeps_ret.
Qed.

Lemma keeps_initial_task story_id :
  keeps_embedded (create_initial_story_task story_id) (fun _ => True).
Proof.
  unfold create_initial_story_task.
  apply keeps_try;
    [| intro e;
       apply (keeps_failure_handler
                (fun e => "Error creating initial story for story "
                          ++ str_int story_id ++ ": " ++ str e))].
  unfold Story_objects_get.
  eapply keeps_bind; [apply keeps_get_story|]. intros story _.
  eapply keeps_bind; [apply keeps_generate_embedding|]. intros e He.
  eapply keeps_bind.
  { apply keeps_objects_create. intros _. exists e. auto. }
  intros first_card _.
  eapply keeps_bind; [apply keeps_logger|]. intros _ _.
  now apply keeps_ret.
Qed.

Lemma keeps_image_task card_id style :
  keeps_embedded (generate_image_task card_id style) (fun _ => True).
Proof.
  unfold generate_image_task.
  apply keeps_try;
    [| intro e;
       apply (keeps_failure_handler
                (fun e => "Error generating image for flashcard "
                          ++ str_int card_id ++ ": " ++ str e))].
  unfold FlashCard_objects_get.
  eapply keeps_bind; [apply keeps_get_card|]. intros flashcard Hc.
  eapply keeps_bind.
  { apply keeps_FlashCard_save, savable_embedded. exact Hc. }
  intros _ _.
  eapply keeps_bind; [apply keeps_logger|]. intros _ _.
  now apply keeps_ret.
Qed.

Lemma keeps_recalculate_task card_id :
  keeps_embedded (recalculate_embedding_task card_id) (fun _ => True).
Proof.
  unfold recalculate_embedding_task.
  apply keeps_try;
    [| intro e;
       apply (keeps_failure_handler
                (fun e => "Error recalculating embedding for flashcard "
                          ++ str_int card_id ++ ": " ++ str e))].
  unfold FlashCard_objects_get.
  eapply keeps_bind; [apply keeps_get_card|]. intros flashcard _.
  eapply keeps_bind; [apply keeps_generate_embedding|]. intros e He.
  eapply keeps_bind; [apply keeps_FlashCard_save, savable_vector, He|].
  intros _ _.
  eapply keeps_bind; [apply keeps_logger|]. intros _ _.
  now apply keeps_ret.
Qed.

Lemma keeps_update instance validated :
  embedded_384 instance ->
  keeps_embedded (FlashCardUpdateSerializer_update instance validated)
    (fun _ => True).
Proof.
  intro Hi. unfold FlashCardUpdateSerializer_update.
  eapply keeps_bind.
  { apply keeps_FlashCard_save, savable_embedded.
    destruct validated; exact Hi. }
  intros saved _.
  eapply keeps_bind; [apply keeps_delay|]. intros _ _.
  now apply keeps_ret.
Qed.

Lemma keeps_validate story_id data :
  keeps_embedded (FlashCardCreateSerializer_validate story_id data)
    (fun _ => True).
Proof.
  unfold FlashCardCreateSerializer_validate.
  eapply keeps_bind with (Q := fun _ => True).
  - apply keeps_try; [|intro e; now apply keeps_ret].
    eapply keeps_bind with (Q := fun _ => True); [|intros; now apply keeps_ret].
    unfold validate_parent_card_id.
    destruct (parent_card_id data) as [v|]; [|now apply keeps_ret].
    destruct (v =? 0); [now apply keeps_ret|].
    eapply keeps_bind with (Q := fun _ => True); [|intros; now apply keeps_ret].
    apply keeps_try; [|intro e; apply keeps_raise].
    eapply keeps_bind; [apply keeps_get_card|]. intros; now apply keeps_ret.
  - intros p _.
    destruct p, (CharField (user_prompt data)); now apply keeps_ret.
Qed.

Lemma submit_keeps_embedded user story_id data w :
  embedded_world w ->
  embedded_world (snd (FlashCardCreateView_create user story_id data w)).
Proof.
  intro Hw. unfold FlashCardCreateView_create, respond.
  match goal with |- context [ ?body w ] =>
    assert (Hk : keeps_embedded body (fun _ => True)) end.
  { eapply keeps_bind with (Q := fun _ => True).
    - unfold get_Story_or_404.
      apply keeps_try; [apply keeps_get_story | intro e; apply keeps_raise].
    - intros _ _.
      eapply keeps_bind; [apply keeps_validate|]. intros v _.
      destruct v as [errors|[prompt parent]]; [now apply keeps_ret|].
      eapply keeps_bind; [apply keeps_delay|]. intros; now apply keeps_ret. }
  destruct (Hk w Hw) as [Hw1 _].
  match goal with |- context [ ?body w ] => destruct (body w) as [[r|e] w1] end;
    [exact Hw1 | destruct e; exact Hw1].
Qed.

Lemma step_keeps_embedded w w' :
  step w w' -> embedded_world w -> embedded_world w'.
Proof.
  intros Hstep Hw. destruct Hstep.
  - apply keeps_turn_task, Hw.
  - apply keeps_initial_task, Hw.
  - apply keeps_image_task, Hw.
  - apply keeps_recalculate_task, Hw.
  - apply submit_keeps_embedded, Hw.
  - apply keeps_update; [|exact Hw].
    destruct Hw as [Hd _]. unfold all_embedded in Hd.
    rewrite Forall_forall in Hd. now apply Hd.
  - apply keeps_objects_create; [apply savable_none | exact Hw].
  - destruct Hw as [Hd Hh]. split.
    + unfold all_embedded in *. rewrite Forall_forall in *. auto.
    + now rewrite H0.
Qed.

Lemma store_card_In d self :
  In (fst (store_card d self)) (flashcards (snd (store_card d self))).
Proof.
  unfold store_card. destruct (card_pk self) as [k|]; cbn.
  - destruct (existsb _ (flashcards d)) eqn:He; cbn.
    + apply existsb_exists in He. destruct He as (c & Hc & Hpk).
      apply in_map_iff. exists c. now rewrite Hpk.
    + apply in_or_app. right. now left.
  - apply in_or_app. right. now left.
Qed.

(** C9. Every stored card has a populated embedding of 384 components:
    saving a card that has none generates it from the card's text, and in
    every world the system reaches, every card of the store, and of every
    state the store went through, has its 384 components.  (The dimension
    of what a loaded model encodes is the model's contract.) *)
Theorem stored_cards_always_embedded :
  (forall self w saved w',
      has_embedding self = false ->
      FlashCard_save self w = (Returned saved, w') ->
      embedding saved = Some (embedding_of (content_text self)) /\
      List.length (embedding_of (content_text self)) = 384%nat /\
      In saved (flashcards (db w'))) /\
  (forall w, reachable w ->
             all_embedded (db w) /\ Forall all_embedded (history w)).
Proof.
  split.
  - intros self w saved w' Hnone Hsave.
    destruct (FlashCard_save_cases self w)
      as [(e & w1 & Hs & _) | (w1 & Hs & Hdb & _)];
      rewrite Hs in Hsave; [discriminate Hsave|].
    inversion Hsave; subst w1. rewrite Hdb.
    split; [|split].
    + unfold prepared. rewrite Hnone. unfold store_card. cbn.
      destruct (card_pk self); [destruct (existsb _ _)|]; reflexivity.
    + apply embedding_of_length, model_contract.
    + apply store_card_In.
  - intros w Hreach. induction Hreach as [w Hcards Hhist | w w' _ IH Hstep].
    + unfold all_embedded. rewrite Hcards, Hhist. split; constructor.
    + exact (step_keeps_embedded w w' Hstep IH).
Qed.

End Embedded.

(** ** Submitting a turn *)


Lemma validate_parent_unknown story_id pid w :
  faults w = [] -> pid <> 0 ->
  parent_lookup story_id pid (db w) = [] ->
  validate_parent_card_id story_id (Some pid) w
  = (Raised (ValidationError unknown_parent), w).
Proof.
  intros Hf Hpid Hnone. unfold validate_parent_card_id.
  apply Z.eqb_neq in Hpid. rewrite Hpid.
  unfold FlashCard_objects_get_in_story, try_except, bind at 1.
  unfold bind at 1. rewrite QuerySet_get_no_fault by exact Hf.
  unfold parent_lookup in Hnone. rewrite Hnone. reflexivity.
Qed.




Lemma get_Story_or_404_found story_id user w story :
  faults w = [] ->
  filter (fun s => (story_pk s =? story_id) && (owner s =? user))
         (stories (db w)) = [story] ->
  get_Story_or_404 story_id user w = (Returned story, w).
Proof.
  intros Hf Hs. unfold get_Story_or_404, try_except.
  rewrite QuerySet_get_no_fault by exact Hf. rewrite Hs. reflexivity.
Qed.



(** ** The connection model *)

(** [CardConnection.clean] raises ValidationError for two cards of
    different stories and for a card paired with itself. *)
Lemma CardConnection_clean_rejects source target :
  card_story source <> card_story target \/
  (exists k, card_pk source = Some k /\ card_pk target = Some k) ->
  exists msg,
    CardConnection_clean source target = inl (ValidationError msg).
Proof.
  intros H. unfold CardConnection_clean.
  destruct (card_story source =? card_story target) eqn:Hs; cbn.
  - destruct H as [H | (k & Hk1 & Hk2)].
    + apply Z.eqb_eq in Hs. contradiction.
    + rewrite Hk1, Hk2, Z.eqb_refl. eexists. reflexivity.
  - eexists. reflexivity.
Qed.

(** * More of the program *)

(** ** The image URL *)





Lemma string_length_app a b :
  String.length (a ++ b) = (String.length a + String.length b)%nat.
Proof. induction a as [|c a IH]; simpl; [reflexivity | now rewrite IH]. Qed.


(** ** More on the search *)

Lemma firstn_length_min (A : Type) n (l : list A) :
  List.length (firstn n l) = Nat.min n (List.length l).
Proof. apply length_firstn. Qed.

(** X2. With the database answering and a [top_k] that is not negative,
    the search returns exactly min(top_k, number of cards of the story)
    texts: [top_k] bounds the result, and a story with fewer cards gives
    them all.  It logs nothing and leaves the world as it was. *)
Theorem rag_search_result_count :
  forall (story_id : Z) (query : Vector) (top_k : Z) (w : World),
    faults w = [] -> 0 <= top_k ->
    exists texts,
      perform_rag_search story_id query top_k w = (Returned texts, w) /\
      List.length texts
      = Nat.min (Z.to_nat top_k)
                (List.length (cards_of_story story_id (db w))).
Proof.
  intros story_id query top_k w Hf Hk.
  eexists. split; [now apply perform_rag_search_no_fault|].
  rewrite length_map. unfold similar_cards.
  rewrite firstn_length_min, order_by_length. reflexivity.
Qed.


Section Ranking.

Variable leb : FlashCard -> FlashCard -> bool.
Hypothesis leb_total : forall a b, leb a b = false -> leb b a = true.
Hypothesis leb_trans :
  forall a b c, leb a b = true -> leb b c = true -> leb a c = true.

Lemma insert_by_Permutation x l : Permutation (insert_by leb x l) (x :: l).
Proof.
  induction l as [|y l IH]; simpl; [reflexivity|].
  destruct (leb x y); [reflexivity|].
  rewrite IH. apply perm_swap.
Qed.

Lemma order_by_Permutation l : Permutation (order_by leb l) l.
Proof.
  induction l as [|x l IH]; simpl; [constructor|].
  rewrite insert_by_Permutation. now constructor.
Qed.

Lemma insert_by_sorted x l :
  StronglySorted (fun a b => leb a b = true) l ->
  StronglySorted (fun a b => leb a b = true) (insert_by leb x l).
Proof.
  induction l as [|y l IH]; simpl; intro Hs.
  - repeat constructor.
  - inversion Hs as [|? ? Hl Hy]; subst.
    destruct (leb x y) eqn:Hxy.
    + constructor; [exact Hs|]. constructor; [exact Hxy|].
      rewrite Forall_forall in *. intros z Hz.
      apply leb_trans with y; [exact Hxy | now apply Hy].
    + constructor; [now apply IH|].
      rewrite Forall_forall in *. intros z Hz.
      apply insert_by_In in Hz. destruct Hz as [-> | Hz].
      * now apply leb_total.
      * now apply Hy.
Qed.

Lemma order_by_sorted l :
  StronglySorted (fun a b => leb a b = true) (order_by leb l).
Proof.
  induction l as [|x l IH]; simpl; [constructor | now apply insert_by_sorted].
Qed.

Lemma sorted_prefix_before_rest n l a b :
  StronglySorted (fun a b => leb a b = true) l ->
  In a (firstn n l) -> In b (skipn n l) -> leb a b = true.
Proof.
  revert l. induction n as [|n IH]; intros l Hs Ha Hb; [destruct Ha|].
  destruct l as [|x l]; [destruct Ha|].
  inversion Hs as [|? ? Hl Hx]; subst. simpl in Ha, Hb.
  destruct Ha as [-> | Ha].
  - rewrite Forall_forall in Hx. apply Hx.
    rewrite <- (firstn_skipn n l). apply in_or_app. now right.
  - now apply (IH l).
Qed.

End Ranking.

Lemma closer_total query :
  total_preorder CosineDistance_leb ->
  forall a b, closer query a b = false -> closer query b a = true.
Proof.
  intros [Htot _] a b. unfold closer.
  destruct (embedding a), (embedding b); try discriminate; auto.
Qed.

Lemma closer_trans query :
  total_preorder CosineDistance_leb ->
  forall a b c, closer query a b = true -> closer query b c = true ->
                closer query a c = true.
Proof.
  intros [_ Htr] a b c. unfold closer.
  destruct (embedding a), (embedding b), (embedding c);
    try discriminate; eauto.
Qed.

(** X4. Most similar first.  When the distance ordering is a total
    preorder, the database answers and [top_k] is not negative, the texts
    the search returns are those of the first [top_k] cards of a ranking of
    all the cards of the story (a permutation of them) in which no card is
    farther from the query than a later one; so every card returned is at
    most as far from the query as every card of the story left out. *)
Theorem rag_search_returns_the_nearest :
  total_preorder CosineDistance_leb ->
  forall (story_id : Z) (query : Vector) (top_k : Z) (w : World),
    faults w = [] -> 0 <= top_k ->
    exists ranked,
      Permutation ranked (cards_of_story story_id (db w)) /\
      StronglySorted (fun a b => closer query a b = true) ranked /\
      perform_rag_search story_id query top_k w
      = (Returned (map content_text (firstn (Z.to_nat top_k) ranked)), w) /\
      forall a b,
        In a (firstn (Z.to_nat top_k) ranked) ->
        In b (skipn (Z.to_nat top_k) ranked) ->
        closer query a b = true.
Proof.
  intros Hord story_id query top_k w Hf Hk.
  exists (order_by (closer query) (cards_of_story story_id (db w))).
  assert (Hs : StronglySorted (fun a b => closer query a b = true)
                 (order_by (closer query) (cards_of_story story_id (db w)))).
  { apply order_by_sorted; [now apply closer_total | now apply closer_trans]. }
  split; [apply order_by_Permutation|]. split; [exact Hs|].
  split; [now apply perform_rag_search_no_fault|].
  intros a b. now apply sorted_prefix_before_rest with (leb := closer query).
Qed.

(** ** The other tasks *)

Lemma prepared_refreshed card :
  prepared (set_embedding card (Some (embedding_of (content_text card))))
  = set_embedding card (Some (embedding_of (content_text card))).
Proof.
  unfold prepared, has_embedding, opt_list_truthy; simpl.
  destruct (list_truthy (embedding_of (content_text card))); reflexivity.
Qed.

Lemma pk_is_Some pk k : pk_is pk k = true -> pk = Some k.
Proof.
  unfold pk_is. destruct pk as [x|]; [|discriminate].
  intro H. apply Z.eqb_eq in H. now subst.
Qed.

Lemma store_card_replace d self k :
  card_pk self = Some k ->
  existsb (fun c => pk_is (card_pk c) k) (flashcards d) = true ->
  store_card d self
  = (self,
     with_flashcards d
       (map (fun c => if pk_is (card_pk c) k then self else c) (flashcards d))
       (flashcard_seq d)).
Proof. intros Hk He. unfold store_card. now rewrite Hk, He. Qed.

(** X5. When the recalculation task succeeds for a card, the row of that
    card gets the embedding of its current text; its text, story and image,
    every other card, the stories, the connections and the queue are as
    before, and the store is written once. *)
Theorem recalculation_refreshes_the_embedding :
  forall (card_id : Z) (w : World) (r : Z) (w' : World),
    recalculate_embedding_task card_id w
    = (Returned (EmbeddingRecalculated r), w') ->
    r = card_id /\
    exists card,
      In card (flashcards (db w)) /\
      card_pk card = Some card_id /\
      flashcards (db w')
      = map (fun c => if pk_is (card_pk c) card_id
                      then mkFlashCard (card_pk c) (card_story c)
                             (content_text c)
                             (Some (embedding_of (content_text c)))
                             (image_url c)
                      else c)
            (flashcards (db w)) /\
      stories (db w') = stories (db w) /\
      connections (db w') = connections (db w) /\
      flashcard_seq (db w') = flashcard_seq (db w) /\
      connection_seq (db w') = connection_seq (db w) /\
      queue w' = queue w /\
      history w' = (history w ++ [db w'])%list.
Proof.
  intros card_id w r w' Hrun.
  unfold recalculate_embedding_task in Hrun.
  apply try_except_inv in Hrun.
  destruct Hrun as [(res & Hbody & Hr) | [(e & w1 & _ & _ & Hh) | (e & _ & _ & Hr)]];
    [| discriminate Hh | discriminate Hr].
  inversion Hr; subst res. clear Hr.
  apply bind_Returned_inv in Hbody.
  destruct Hbody as (card & w1 & Hget & Hbody).
  unfold FlashCard_objects_get in Hget.
  destruct (QuerySet_get_cases FlashCard "FlashCard"
              (fun d => filter (fun c => pk_is (card_pk c) card_id) (flashcards d)) w)
    as [(e & w0 & Hg & _) | (card0 & w0 & Hg & (Hd & Hh & Hq) & _ & Hsel)];
    rewrite Hg in Hget; [discriminate Hget|].
  inversion Hget; subst card0 w0. clear Hget.
  destruct (filter_singleton_holds _ _ _ _ Hsel) as [Hpk Hin].
  pose proof (pk_is_Some _ _ Hpk) as Hk.
  rewrite (bind_Returned _ _ _ _ _ _ _ (generate_embedding_eq _ w1)) in Hbody.
  apply bind_Returned_inv in Hbody.
  destruct Hbody as (saved & w2 & Hsave & Hbody).
  unfold bind, logger, ret in Hbody. inversion Hbody; subst r w'. clear Hbody.
  split; [reflexivity|].
  exists card. split; [exact Hin|]. split; [exact Hk|].
  destruct (FlashCard_save_cases
              (set_embedding card (Some (embedding_of (content_text card))))
              (logged w1 (embedding_log (content_text card))))
    as [(e & w3 & Hs & _) | (w3 & Hs & Hdb & Hhist & Hqueue)];
    rewrite Hs in Hsave; [discriminate Hsave|].
  inversion Hsave; subst w3. clear Hsave H0.
  cbn [db history queue logged] in *.
  rewrite prepared_refreshed in Hdb.
  rewrite (store_card_replace _ _ card_id) in Hdb;
    [| exact Hk | rewrite Hd; exact (existsb_of_In _ _ _ card Hin Hpk)].
  cbn [snd] in Hdb.
  rewrite Hhist, Hqueue, Hdb, Hd, Hh, Hq. cbn.
  repeat split.
  apply map_ext_in. intros c Hc.
  destruct (pk_is (card_pk c) card_id) eqn:Hcpk; [|reflexivity].
  rewrite (filter_singleton_unique _ _ _ _ _ Hsel Hc Hcpk). reflexivity.
Qed.

(** What a failing body of the three single-write tasks leaves. *)
Lemma save_then_report_raises (A : Type) self (k : FlashCard -> M A) w e w' :
  (forall c w0 e0 w1, k c w0 <> (Raised e0, w1)) ->
  bind (FlashCard_save self) k w = (Raised e, w') ->
  same_store w w'.
Proof.
  intros Hk H. apply bind_Raised_inv in H.
  destruct H as [H | (c & w1 & _ & H)]; [|now apply Hk in H].
  destruct (FlashCard_save_cases self w) as [(e0 & w0 & Hs & Hsame) | (w0 & Hs & _)];
    rewrite Hs in H; [|discriminate H].
  inversion H; subst. exact Hsame.
Qed.

Lemma get_card_then_raises (A : Type) card_id (k : FlashCard -> M A) w e w' :
  (forall c w0, k c w0 = (Raised e, w') -> same_store w0 w') ->
  bind (FlashCard_objects_get card_id) k w = (Raised e, w') ->
  same_store w w'.
Proof.
  intros Hk H. unfold FlashCard_objects_get in H.
  destruct (QuerySet_get_cases FlashCard "FlashCard"
              (fun d => filter (fun c => pk_is (card_pk c) card_id) (flashcards d)) w)
    as [(e0 & w0 & Hg & Hs & _) | (c & w0 & Hg & Hs & _)].
  - rewrite (bind_Raised _ _ _ _ _ _ _ Hg) in H. inversion H; subst. exact Hs.
  - rewrite (bind_Returned _ _ _ _ _ _ _ Hg) in H.
    eapply same_store_trans; [exact Hs | now apply (Hk c w0)].
Qed.

Lemma get_story_then_raises (A : Type) story_id (k : Story -> M A) w e w' :
  (forall s w0, k s w0 = (Raised e, w') -> same_store w0 w') ->
  bind (Story_objects_get story_id) k w = (Raised e, w') ->
  same_store w w'.
Proof.
  intros Hk H. unfold Story_objects_get in H.
  destruct (QuerySet_get_cases Story "Story"
              (fun d => filter (fun s => story_pk s =? story_id) (stories d)) w)
    as [(e0 & w0 & Hg & Hs & _) | (c & w0 & Hg & Hs & _)].
  - rewrite (bind_Raised _ _ _ _ _ _ _ Hg) in H. inversion H; subst. exact Hs.
  - rewrite (bind_Returned _ _ _ _ _ _ _ Hg) in H.
    eapply same_store_trans; [exact Hs | now apply (Hk c w0)].
Qed.

(** A task made of a fallible body and the handler that reports. *)
Lemma reported_task (body : M TaskResult) (msg : Exception -> string) w :
  (forall r w1, body w = (Returned r, w1) -> success r = true) ->
  (forall e w1, body w = (Raised e, w1) -> same_store w w1) ->
  exists r w',
    try_except body any_Exception
      (fun e => logger ERROR (msg e) ;;; ret (TaskFailed (str e))) w
    = (Returned r, w') /\
    (success r = false -> same_store w w').
Proof.
  intros Hok Hfail. unfold try_except.
  destruct (body w) as [[r|e] w1] eqn:Hb.
  - exists r, w1. split; [reflexivity|].
    intro H. rewrite (Hok r w1 eq_refl) in H. discriminate H.
  - eexists _, _. split; [reflexivity|]. intros _.
    eapply same_store_trans; [exact (Hfail e w1 eq_refl)|].
    apply logged_same_store.
Qed.

(** X6. The image task, the recalculation task and the initial-story task
    return for every input, and when they report a failure they have
    written nothing: the store, its history and the queue are those of the
    start.  (Each makes its one write last; the turn task, with two writes
    and a connection, is different.) *)
Theorem single_write_tasks_fail_cleanly :
  forall (w : World),
    (forall card_id style,
        exists r w',
          generate_image_task card_id style w = (Returned r, w') /\
          (success r = false -> same_store w w')) /\
    (forall card_id,
        exists r w',
          recalculate_embedding_task card_id w = (Returned r, w') /\
          (success r = false -> same_store w w')) /\
    (forall story_id,
        exists r w',
          create_initial_story_task story_id w = (Returned r, w') /\
          (success r = false -> same_store w w')).
Proof.
  intro w. split; [|split].
  - intros card_id style. unfold generate_image_task.
    apply reported_task with
      (msg := fun e => "Error generating image for flashcard "
                       ++ str_int card_id ++ ": " ++ str e).
    + intros r w1 H.
      repeat (apply bind_Returned_inv in H; destruct H as (? & ? & _ & H)).
      inversion H. reflexivity.
    + intros e w1 H. eapply get_card_then_raises; [|exact H].
      intros c w0 H0. eapply save_then_report_raises; [|exact H0].
      intros c' w2 e0 w3. unfold bind, logger, ret. discriminate.
  - intros card_id. unfold recalculate_embedding_task.
    apply reported_task with
      (msg := fun e => "Error recalculating embedding for flashcard "
                       ++ str_int card_id ++ ": " ++ str e).
    + intros r w1 H.
      repeat (apply bind_Returned_inv in H; destruct H as (? & ? & _ & H)).
      inversion H. reflexivity.
    + intros e w1 H. eapply get_card_then_raises; [|exact H].
      intros c w0 H0. cbv beta in H0.
      rewrite (bind_Returned _ _ _ _ _ _ _ (generate_embedding_eq _ w0)) in H0.
      eapply same_store_trans; [apply logged_same_store|].
      eapply save_then_report_raises; [|exact H0].
      intros c' w2 e0 w3. unfold bind, logger, ret. discriminate.
  - intros story_id. unfold create_initial_story_task.
    apply reported_task with
      (msg := fun e => "Error creating initial story for story "
                       ++ str_int story_id ++ ": " ++ str e).
    + intros r w1 H.
      repeat (apply bind_Returned_inv in H; destruct H as (? & ? & _ & H)).
      inversion H. reflexivity.
    + intros e w1 H. eapply get_story_then_raises; [|exact H].
      intros s w0 H0. cbv beta zeta in H0.
      rewrite (bind_Returned _ _ _ _ _ _ _ (generate_embedding_eq _ w0)) in H0.
      eapply same_store_trans; [apply logged_same_store|].
      unfold FlashCard_objects_create in H0.
      eapply save_then_report_raises; [|exact H0].
      intros c w2 e0 w3. unfold bind, logger, ret. discriminate.
Qed.

(** ** The first card, and a turn that names its parent *)

Lemma prepared_first_card story_id text :
  prepared (mkFlashCard None story_id text (Some (embedding_of text)) None)
  = mkFlashCard None story_id text (Some (embedding_of text)) None.
Proof.
  unfold prepared, has_embedding, opt_list_truthy; simpl.
  destruct (list_truthy (embedding_of text)); reflexivity.
Qed.

(** X7. When the initial-story task succeeds, the story exists, the text
    is generated from the empty context and the story's initial prompt, and
    the store gains exactly one card: that text, with the embedding of the
    text, no image, under the next id of the sequence.  No search is made,
    no connection is created and nothing is queued. *)
Theorem initial_task_creates_the_first_card :
  forall (story_id : Z) (w : World) (card_id : option Z) (text : string)
         (w' : World),
    create_initial_story_task story_id w
    = (Returned (SegmentGenerated card_id text), w') ->
    exists story,
      filter (fun s => story_pk s =? story_id) (stories (db w)) = [story] /\
      text = generate_story_segment "" (initial_prompt story) /\
      card_id = Some (flashcard_seq (db w)) /\
      flashcards (db w')
      = (flashcards (db w) ++
         [mkFlashCard card_id story_id text (Some (embedding_of text)) None])%list /\
      flashcard_seq (db w') = flashcard_seq (db w) + 1 /\
      stories (db w') = stories (db w) /\
      connections (db w') = connections (db w) /\
      connection_seq (db w') = connection_seq (db w) /\
      queue w' = queue w /\
      history w' = (history w ++ [db w'])%list.
Proof.
  intros story_id w card_id text w' Hrun.
  unfold create_initial_story_task in Hrun.
  apply try_except_inv in Hrun.
  destruct Hrun as [(res & Hbody & Hr) | [(e & w1 & _ & _ & Hh) | (e & _ & _ & Hr)]];
    [| discriminate Hh | discriminate Hr].
  inversion Hr; subst res. clear Hr.
  unfold Story_objects_get in Hbody.
  destruct (QuerySet_get_cases Story "Story"
              (fun d => filter (fun s => story_pk s =? story_id) (stories d)) w)
    as [(e & w0 & Hg & _) | (story & w0 & Hg & (Hd & Hh & Hq) & _ & Hsel)].
  { rewrite (bind_Raised _ _ _ _ _ _ _ Hg) in Hbody. discriminate Hbody. }
  rewrite (bind_Returned _ _ _ _ _ _ _ Hg) in Hbody. cbv zeta in Hbody.
  rewrite (bind_Returned _ _ _ _ _ _ _ (generate_embedding_eq _ w0)) in Hbody.
  apply bind_Returned_inv in Hbody.
  destruct Hbody as (first_card & w2 & Hcreate & Hbody).
  unfold bind, logger, ret in Hbody. inversion Hbody; subst card_id text w'.
  clear Hbody.
  destruct (filter_singleton_holds _ _ _ _ Hsel) as [Hpk _].
  apply Z.eqb_eq in Hpk.
  unfold FlashCard_objects_create in Hcreate.
  match type of Hcreate with FlashCard_save ?self ?w1 = _ =>
    destruct (FlashCard_save_cases self w1)
      as [(e & w3 & Hs & _) | (w3 & Hs & Hdb & Hhist & Hqueue)] end;
    rewrite Hs in Hcreate; [discriminate Hcreate|].
  inversion Hcreate; subst w3. clear Hcreate.
  rewrite prepared_first_card, store_card_insert in * by reflexivity.
  cbn [fst snd db history queue logged card_pk card_story content_text
       embedding image_url] in *.
  exists story. split; [exact Hsel|]. split; [reflexivity|].
  rewrite Hhist, Hqueue, Hdb, Hd, Hh, Hq, Hpk. cbn. repeat split.
Qed.

Lemma Story_objects_get_found story_id w story :
  faults w = [] ->
  filter (fun s => story_pk s =? story_id) (stories (db w)) = [story] ->
  Story_objects_get story_id w = (Returned story, w).
Proof.
  intros Hf Hs. unfold Story_objects_get.
  rewrite QuerySet_get_no_fault by exact Hf. now rewrite Hs.
Qed.

(** The initial task when no statement fails. *)
Lemma initial_task_no_fault story_id w story :
  faults w = [] ->
  filter (fun s => story_pk s =? story_id) (stories (db w)) = [story] ->
  exists w',
    create_initial_story_task story_id w
    = (Returned (SegmentGenerated (Some (flashcard_seq (db w)))
                   (generate_story_segment "" (initial_prompt story))), w') /\
    db w' = store_with_card (db w)
              (final_card (db w) story_id
                 (generate_story_segment "" (initial_prompt story))) /\
    faults w' = [] /\ queue w' = queue w.
Proof.
  intros Hf Hs.
  assert (Hpk : story_pk story = story_id).
  { apply filter_singleton_holds in Hs. now apply Z.eqb_eq. }
  unfold create_initial_story_task, try_except.
  rewrite (bind_Returned _ _ _ _ _ _ _ (Story_objects_get_found _ _ _ Hf Hs)).
  cbv zeta.
  rewrite (bind_Returned _ _ _ _ _ _ _ (generate_embedding_eq _ w)).
  unfold FlashCard_objects_create.
  rewrite (bind_Returned _ _ _ _ _ _ _
             (FlashCard_save_no_fault _ (logged w _) Hf)).
  rewrite prepared_first_card, store_card_insert by reflexivity.
  cbn. eexists. split; [reflexivity|]. cbn.
  rewrite Hpk. repeat split. exact Hf.
Qed.

Lemma link_parent_found story story_id pid parent_card new_card t w :
  pid <> 0 ->
  faults w = [] ->
  filter (fun c => pk_is (card_pk c) pid && (card_story c =? story_pk story))
         (flashcards (db w)) = [parent_card] ->
  card_pk new_card = Some t ->
  existsb (fun c => (source_card c =? pid) && (target_card c =? t))
          (connections (db w)) = false ->
  link_parent story story_id (Some pid) new_card w
  = (Returned tt,
     with_db w
       (with_connections (db w)
          (connections (db w) ++
           [mkCardConnection (Some (connection_seq (db w))) (story_pk story)
              pid t])%list
          (connection_seq (db w) + 1))).
Proof.
  intros Hpid Hf Hsel Ht Hdup. unfold link_parent.
  apply Z.eqb_neq in Hpid. rewrite Hpid.
  unfold try_except, FlashCard_objects_get_in_story.
  assert (Hget : QuerySet_get "FlashCard"
            (fun d => filter (fun c => pk_is (card_pk c) pid
                                       && (card_story c =? story_pk story))
                             (flashcards d)) w
          = (Returned parent_card, w)).
  { rewrite QuerySet_get_no_fault by exact Hf. rewrite Hsel. reflexivity. }
  rewrite (bind_Returned _ _ _ _ _ _ _ Hget).
  assert (Hs : card_pk parent_card = Some pid).
  { apply filter_singleton_holds in Hsel. destruct Hsel as [Hsel _].
    apply andb_true_iff in Hsel. now apply pk_is_Some. }
  unfold CardConnection_objects_create. rewrite Hs, Ht.
  unfold bind, db_statement, read_db, write_db, ret. rewrite Hf. cbn.
  rewrite Hdup. reflexivity.
Qed.

Lemma filter_app_last_kept (A : Type) (f : A -> bool) l x y :
  filter f l = [y] -> f x = false -> filter f (l ++ [x]) = [y].
Proof.
  intros Hl Hx. rewrite filter_app, Hl. simpl. now rewrite Hx.
Qed.

Lemma key_of_stored_card_below d c k :
  keys_below_seq d = true -> In c (flashcards d) -> card_pk c = Some k ->
  k < flashcard_seq d.
Proof.
  intros Hkeys Hin Hk. unfold keys_below_seq in Hkeys.
  rewrite forallb_forall in Hkeys. specialize (Hkeys c Hin).
  unfold key_below in Hkeys. rewrite Hk in Hkeys. now apply Z.ltb_lt.
Qed.

(** The turn that names a stored card of the story, when no statement
    fails. *)
Lemma turn_with_parent_no_fault story_id prompt pid w story parent_card :
  pid <> 0 ->
  parent_lookup story_id pid (db w) = [parent_card] ->
  filter (fun s => story_pk s =? story_id) (stories (db w)) = [story] ->
  faults w = [] ->
  keys_below_seq (db w) = true ->
  existsb (fun c => (source_card c =? pid)
                    && (target_card c =? flashcard_seq (db w)))
          (connections (db w)) = false ->
  exists text w',
    generate_story_segment_task story_id prompt (Some pid) w
    = (Returned (SegmentGenerated (Some (flashcard_seq (db w))) text), w') /\
    db w'
    = with_connections
        (store_with_card (db w) (final_card (db w) story_id text))
        (connections (db w) ++
         [mkCardConnection (Some (connection_seq (db w))) story_id pid
            (flashcard_seq (db w))])%list
        (connection_seq (db w) + 1) /\
    faults w' = [] /\ queue w' = queue w.
Proof.
  intros Hpid Hparent Hstory Hf Hkeys Hdup.
  assert (Hpk : story_pk story = story_id).
  { apply filter_singleton_holds in Hstory. now apply Z.eqb_eq. }
  subst story_id.
  set (w2 := logged w (embedding_log prompt)).
  set (segs := map content_text
                 (similar_cards (db w2) (story_pk story) (embedding_of prompt) 5)).
  assert (H2 : retrieve_context (story_pk story) prompt w
               = (Returned (embedding_of prompt, assemble_context segs), w2)).
  { unfold retrieve_context.
    rewrite (bind_Returned _ _ _ _ _ _ _ (generate_embedding_eq prompt w)).
    fold w2.
    rewrite (bind_Returned _ _ _ _ _ _ _
               (perform_rag_search_no_fault (story_pk story) (embedding_of prompt)
                  5 w2 Hf ltac:(lia))).
    reflexivity. }
  set (text := generate_story_segment (assemble_context segs) prompt).
  destruct (persist_segment_no_fault story text (embedding_of prompt) w2 Hf Hkeys)
    as (w3 & H3 & Hdb3 & Hf3 & Hq3 & Hh3).
  cbn [db logged w2] in H3, Hdb3.
  assert (Hlt : pid < flashcard_seq (db w)).
  { destruct (filter_singleton_holds _ _ _ _ Hparent) as [Hp Hin].
    apply andb_true_iff in Hp. destruct Hp as [Hp _].
    eapply key_of_stored_card_below; eauto using pk_is_Some. }
  assert (H4 := link_parent_found story (story_pk story) pid parent_card
                  (final_card (db w) (story_pk story) text)
                  (flashcard_seq (db w)) w3 Hpid Hf3).
  rewrite Hdb3 in H4.
  cbn [flashcards connections connection_seq store_with_card with_flashcards]
    in H4.
  specialize (H4 ltac:(apply filter_app_last_kept;
                       [exact Hparent
                       | cbn; apply andb_false_intro1; apply Z.eqb_neq; lia])
                 eq_refl Hdup).
  exists text. eexists. split.
  - apply task_returns_body_result. unfold generate_story_segment_body.
    rewrite (bind_Returned _ _ _ _ _ _ _ (Story_objects_get_found _ _ _ Hf Hstory)).
    rewrite (bind_Returned _ _ _ _ _ _ _ H2). cbn [fst snd]. fold text.
    rewrite (bind_Returned _ _ _ _ _ _ _ H3).
    rewrite (bind_Returned _ _ _ _ _ _ _ H4).
    reflexivity.
  - cbn. rewrite Hf3, Hq3. repeat split.
Qed.

(** X8. A turn that names a stored card of the story as its parent (the id
    not zero), with the story in place, no statement failing and no
    connection yet pointing at the id the new card will get: the turn
    succeeds, the store gains the new card and exactly one connection, from
    the parent to the new card, in the story of the turn. *)
Theorem turn_with_parent_creates_one_edge :
  forall (story_id : Z) (prompt : string) (pid : Z) (w : World)
         (story : Story) (parent_card : FlashCard),
    pid <> 0 ->
    parent_lookup story_id pid (db w) = [parent_card] ->
    filter (fun s => story_pk s =? story_id) (stories (db w)) = [story] ->
    faults w = [] ->
    keys_below_seq (db w) = true ->
    existsb (fun c => (source_card c =? pid)
                      && (target_card c =? flashcard_seq (db w)))
            (connections (db w)) = false ->
    exists text w',
      generate_story_segment_task story_id prompt (Some pid) w
      = (Returned (SegmentGenerated (Some (flashcard_seq (db w))) text), w') /\
      flashcards (db w')
      = (flashcards (db w) ++
         [mkFlashCard (Some (flashcard_seq (db w))) story_id text
            (Some (embedding_of text)) None])%list /\
      connections (db w')
      = (connections (db w) ++
         [mkCardConnection (Some (connection_seq (db w))) story_id pid
            (flashcard_seq (db w))])%list.
Proof.
  intros story_id prompt pid w story parent_card Hpid Hparent Hstory Hf Hkeys Hdup.
  destruct (turn_with_parent_no_fault story_id prompt pid w story parent_card
              Hpid Hparent Hstory Hf Hkeys Hdup)
    as (text & w' & Hrun & Hdb & _).
  exists text, w'. split; [exact Hrun|]. rewrite Hdb. split; reflexivity.
Qed.

Lemma forallb_existsb_false (A : Type) (f g : A -> bool) l :
  forallb f l = true -> (forall x, f x = true -> g x = false) ->
  existsb g l = false.
Proof.
  intros Hall Himp. induction l as [|x l IH]; [reflexivity|].
  simpl in *. apply andb_true_iff in Hall. destruct Hall as [Hx Hl].
  now rewrite (Himp x Hx), IH.
Qed.

Lemma filter_none (A : Type) (f : A -> bool) l :
  (forall x, In x l -> f x = false) -> filter f l = [].
Proof.
  induction l as [|x l IH]; [reflexivity|]. intro H. simpl.
  rewrite (H x (or_introl eq_refl)). apply IH. intros y Hy. apply H. now right.
Qed.

(** X9. From a story to its second segment.  In a store whose card ids
    start above zero and whose connections point at stored cards, with the
    story in place and no statement failing: the initial task followed by a
    turn that names the first card as parent leaves two new cards, with the
    ids k and k+1 of the sequence, and exactly one new connection, from the
    first to the second. *)
Theorem first_card_then_turn_gives_one_edge :
  forall (story_id : Z) (prompt : string) (w : World) (story : Story),
    filter (fun s => story_pk s =? story_id) (stories (db w)) = [story] ->
    faults w = [] ->
    keys_below_seq (db w) = true ->
    0 < flashcard_seq (db w) ->
    forallb (fun c => target_card c <? flashcard_seq (db w))
            (connections (db w)) = true ->
    exists text1 w1 text2 w2,
      let k := flashcard_seq (db w) in
      create_initial_story_task story_id w
      = (Returned (SegmentGenerated (Some k) text1), w1) /\
      generate_story_segment_task story_id prompt (Some k) w1
      = (Returned (SegmentGenerated (Some (k + 1)) text2), w2) /\
      flashcards (db w2)
      = (flashcards (db w) ++
         [mkFlashCard (Some k) story_id text1 (Some (embedding_of text1)) None;
          mkFlashCard (Some (k + 1)) story_id text2 (Some (embedding_of text2))
            None])%list /\
      connections (db w2)
      = (connections (db w) ++
         [mkCardConnection (Some (connection_seq (db w))) story_id k (k + 1)])%list.
Proof.
  intros story_id prompt w story Hstory Hf Hkeys Hpos Hedges.
  destruct (initial_task_no_fault story_id w story Hf Hstory)
    as (w1 & Hrun1 & Hdb1 & Hf1 & _).
  set (text1 := generate_story_segment "" (initial_prompt story)) in *.
  set (k := flashcard_seq (db w)) in *.
  assert (Hkeys1 : keys_below_seq (db w1) = true).
  { rewrite Hdb1. now apply store_with_card_keys. }
  assert (Hparent : parent_lookup story_id k (db w1)
                    = [final_card (db w) story_id text1]).
  { rewrite Hdb1. unfold parent_lookup, store_with_card. cbn [flashcards with_flashcards].
    rewrite filter_app. cbn. fold k. rewrite Z.eqb_refl, Z.eqb_refl. cbn.
    rewrite filter_none; [reflexivity|].
    unfold keys_below_seq in Hkeys. rewrite forallb_forall in Hkeys.
    intros c Hc. specialize (Hkeys c Hc).
    fold k in Hkeys. rewrite (key_below_not_seq _ _ Hkeys). reflexivity. }
  assert (Hstory1 : filter (fun s => story_pk s =? story_id) (stories (db w1))
                    = [story]) by (rewrite Hdb1; exact Hstory).
  assert (Hdup : existsb (fun c => (source_card c =? k)
                                   && (target_card c =? flashcard_seq (db w1)))
                         (connections (db w1)) = false).
  { rewrite Hdb1. cbn. fold k.
    apply forallb_existsb_false with (f := fun c => target_card c <? k);
      [exact Hedges|].
    intros c Hc. apply Z.ltb_lt in Hc. apply andb_false_intro2.
    apply Z.eqb_neq. lia. }
  destruct (turn_with_parent_no_fault story_id prompt k w1 story _
              ltac:(lia) Hparent Hstory1 Hf1 Hkeys1 Hdup)
    as (text2 & w2 & Hrun2 & Hdb2 & _).
  exists text1, w1, text2, w2. cbv zeta.
  rewrite Hdb1 in Hrun2, Hdb2. cbn in Hrun2.
  split; [exact Hrun1|]. split; [exact Hrun2|].
  rewrite Hdb2. cbn. fold k. rewrite <- app_assoc. split; reflexivity.
Qed.

(** ** The connections a turn can create *)

Lemma link_parent_inv story story_id parent new_card w o w' :
  link_parent story story_id parent new_card w = (o, w') ->
  same_store w w' \/
  exists pid parent_card t,
    parent = Some pid /\ pid <> 0 /\
    filter (fun c => pk_is (card_pk c) pid && (card_story c =? story_pk story))
           (flashcards (db w)) = [parent_card] /\
    card_pk new_card = Some t /\
    db w' = with_connections (db w)
              (connections (db w) ++
               [mkCardConnection (Some (connection_seq (db w)))
                  (story_pk story) pid t])%list
              (connection_seq (db w) + 1).
Proof.
  unfold link_parent. intro H.
  destruct parent as [pid|];
    [| inversion H; subst; left; apply same_store_refl].
  destruct (pid =? 0) eqn:Hpid;
    [inversion H; subst; left; apply same_store_refl|].
  apply Z.eqb_neq in Hpid.
  unfold try_except, FlashCard_objects_get_in_story in H.
  destruct (QuerySet_get_cases FlashCard "FlashCard"
              (fun d => filter (fun c => pk_is (card_pk c) pid
                                         && (card_story c =? story_pk story))
                               (flashcards d)) w)
    as [(e & w1 & Hrun & Hs & _) | (parent_card & w1 & Hrun & Hs & _ & Hsel)].
  - rewrite (bind_Raised _ _ _ _ _ _ _ Hrun) in H. left.
    destruct (is_ObjectDoesNotExist e); inversion H; subst; [|exact Hs].
    eapply same_store_trans; [exact Hs | apply logged_same_store].
  - rewrite (bind_Returned _ _ _ _ _ _ _ Hrun) in H.
    destruct (CardConnection_objects_create_cases story parent_card new_card w1)
      as [(e & w2 & Hrun2 & Hs2 & He)
         | (row & w2 & s & t & Hrun2 & Hsrc & Ht & Hdb & _)].
    + rewrite (bind_Raised _ _ _ _ _ _ _ Hrun2), He in H.
      inversion H; subst. left. eapply same_store_trans; eassumption.
    + rewrite (bind_Returned _ _ _ _ _ _ _ Hrun2) in H.
      inversion H; subst o w'. right. exists pid, parent_card, t.
      destruct Hs as (Hd1 & _).
      destruct (filter_singleton_holds _ _ _ _ Hsel) as [Hp _].
      apply andb_true_iff in Hp. destruct Hp as [Hp _].
      apply pk_is_Some in Hp. rewrite Hp in Hsrc. inversion Hsrc; subst s.
      rewrite Hdb, Hd1. auto.
Qed.

Lemma turn_body_connection story_id prompt parent w o w' :
  keys_below_seq (db w) = true ->
  generate_story_segment_body story_id prompt parent w = (o, w') ->
  connections (db w') = connections (db w) \/
  exists pid parent_card text,
    parent = Some pid /\ pid <> 0 /\
    parent_lookup story_id pid
      (store_with_card (db w) (final_card (db w) story_id text))
    = [parent_card] /\
    db w' = with_connections
              (store_with_card (db w) (final_card (db w) story_id text))
              (connections (db w) ++
               [mkCardConnection (Some (connection_seq (db w))) story_id pid
                  (flashcard_seq (db w))])%list
              (connection_seq (db w) + 1).
Proof.
  intros Hkeys H. unfold generate_story_segment_body, Story_objects_get in H.
  destruct (QuerySet_get_cases Story "Story"
              (fun d => filter (fun s => story_pk s =? story_id) (stories d)) w)
    as [(e & w1 & Hrun & (Hd1 & _) & _) | (story & w1 & Hrun & Hs & _ & Hsel)].
  { rewrite (bind_Raised _ _ _ _ _ _ _ Hrun) in H. inversion H; subst.
    left. now rewrite Hd1. }
  rewrite (bind_Returned _ _ _ _ _ _ _ Hrun) in H.
  apply filter_singleton_holds in Hsel. destruct Hsel as [Hpk _].
  apply Z.eqb_eq in Hpk. subst story_id.
  destruct (retrieve_context_returns (story_pk story) prompt w1)
    as (segs & w2 & Hr & Hs2).
  rewrite (bind_Returned _ _ _ _ _ _ _ Hr) in H. cbn [fst snd] in H.
  assert (Hs02 : same_store w w2) by (eapply same_store_trans; eassumption).
  destruct Hs02 as (Hd & _ & _).
  assert (Hkeys2 : keys_below_seq (db w2) = true) by (rewrite Hd; exact Hkeys).
  destruct (persist_segment_cases story
              (generate_story_segment (assemble_context segs) prompt)
              (embedding_of prompt) w2 Hkeys2)
    as [(e & w3 & Hp & (Hd3 & _))
       | [(e & w3 & Hp & Hdb3 & _) | (w3 & Hp & Hdb3 & _)]].
  { rewrite (bind_Raised _ _ _ _ _ _ _ Hp) in H. inversion H; subst.
    left. now rewrite Hd3, Hd. }
  { rewrite (bind_Raised _ _ _ _ _ _ _ Hp) in H. inversion H; subst.
    left. now rewrite Hdb3, Hd. }
  rewrite (bind_Returned _ _ _ _ _ _ _ Hp) in H.
  rewrite Hd in Hp, Hdb3, H.
  destruct (link_parent story (story_pk story) parent
              (final_card (db w) (story_pk story)
                 (generate_story_segment (assemble_context segs) prompt)) w3)
    as [o1 w4] eqn:Hl.
  assert (Hdb4 : db w' = db w4).
  { destruct o1 as [[]|e].
    - rewrite (bind_Returned _ _ _ _ _ _ _ Hl) in H.
      unfold bind, logger, ret in H. now inversion H.
    - rewrite (bind_Raised _ _ _ _ _ _ _ Hl) in H. now inversion H. }
  rewrite Hdb4.
  destruct (link_parent_inv _ _ _ _ _ _ _ Hl)
    as [(Hd4 & _) | (pid & parent_card & t & Hparent & Hpid & Hsel & Ht & Hd4)].
  - left. now rewrite Hd4, Hdb3.
  - right. exists pid, parent_card,
      (generate_story_segment (assemble_context segs) prompt).
    cbn in Ht. inversion Ht; subst t.
    rewrite Hdb3 in Hsel, Hd4.
    split; [exact Hparent|]. split; [exact Hpid|].
    split; [exact Hsel | exact Hd4].
Qed.

Lemma In_app_last (A : Type) (l : list A) x y :
  In y (l ++ [x]) -> y = x \/ In y l.
Proof.
  intro H. apply in_app_or in H. destruct H as [H|[H|[]]]; auto.
Qed.

(** X10. A turn adds at most one connection, and never one that leaves the
    story: if, after the turn, the connections are not those of the start,
    then exactly one was appended, in the story of the turn, from the card
    with the non-zero parent id that was given to the new card; both are
    cards of that story in the store.  Unless the parent id is the id the
    new card itself received, the parent was stored before the turn and the
    pair passes [CardConnection.clean]. *)
Theorem turn_links_within_the_story :
  forall (story_id : Z) (prompt : string) (parent : option Z) (w : World)
         (o : Outcome TaskResult) (w' : World),
    keys_below_seq (db w) = true ->
    generate_story_segment_task story_id prompt parent w = (o, w') ->
    connections (db w') = connections (db w) \/
    exists pid parent_card new_card,
      parent = Some pid /\ pid <> 0 /\
      connections (db w')
      = (connections (db w) ++
         [mkCardConnection (Some (connection_seq (db w))) story_id pid
            (flashcard_seq (db w))])%list /\
      In parent_card (flashcards (db w')) /\
      card_pk parent_card = Some pid /\ card_story parent_card = story_id /\
      In new_card (flashcards (db w')) /\
      card_pk new_card = Some (flashcard_seq (db w)) /\
      card_story new_card = story_id /\
      (pid <> flashcard_seq (db w) ->
       In parent_card (flashcards (db w)) /\
       CardConnection_clean parent_card new_card = inr tt).
Proof.
  intros story_id prompt parent w o w' Hkeys Hrun.
  assert (Hbody : exists o1 w1,
             generate_story_segment_body story_id prompt parent w = (o1, w1) /\
             db w' = db w1).
  { destruct (generate_story_segment_body story_id prompt parent w)
      as [[r|e] w1] eqn:Hb; eexists _, w1; (split; [reflexivity|]).
    - rewrite (task_returns_body_result _ _ _ _ _ _ Hb) in Hrun.
      now inversion Hrun.
    - rewrite (task_reports_failure _ _ _ _ _ _ Hb) in Hrun.
      now inversion Hrun. }
  destruct Hbody as (o1 & w1 & Hb & Hdb). rewrite Hdb.
  destruct (turn_body_connection _ _ _ _ _ _ Hkeys Hb)
    as [Hsame | (pid & parent_card & text & Hparent & Hpid & Hsel & Hd1)];
    [now left | right].
  exists pid, parent_card, (final_card (db w) story_id text).
  rewrite Hd1. cbn [connections flashcards with_connections store_with_card
                    with_flashcards].
  destruct (filter_singleton_holds _ _ _ _ Hsel) as [Hp Hin].
  apply andb_true_iff in Hp. destruct Hp as [Hp Hst].
  apply pk_is_Some in Hp. apply Z.eqb_eq in Hst.
  cbn [flashcards store_with_card with_flashcards] in Hin.
  repeat (split; [first [assumption | reflexivity
                        | apply in_or_app; right; now left]|]).
  intro Hne. split.
  - apply In_app_last in Hin. destruct Hin as [-> | Hin]; [|exact Hin].
    cbn in Hp. congruence.
  - unfold CardConnection_clean. rewrite Hst. cbn. rewrite Z.eqb_refl. cbn.
    rewrite Hp. apply Z.eqb_neq in Hne. now rewrite Hne.
Qed.

(** ** Creating, editing and re-embedding a card *)

Lemma filter_key_fresh d :
  keys_below_seq d = true ->
  filter (fun c => pk_is (card_pk c) (flashcard_seq d)) (flashcards d) = [].
Proof.
  intro Hkeys. apply filter_none. intros c Hc.
  unfold keys_below_seq in Hkeys. rewrite forallb_forall in Hkeys.
  apply key_below_not_seq, Hkeys, Hc.
Qed.

(** X11. Insert, then look up.  With no statement failing and the stored
    keys below the sequence, [FlashCard.objects.create] returns the row it
    stored, under the next id of the sequence, with the text given and with
    the embedding given (or, when none or an empty one is given, the
    embedding of the text); and [FlashCard.objects.get] with that id then
    returns this very row. *)
Theorem created_card_is_found_again :
  forall (story : Story) (text : string) (emb : option Vector) (w : World),
    faults w = [] ->
    keys_below_seq (db w) = true ->
    exists row w',
      FlashCard_objects_create story text emb w = (Returned row, w') /\
      row = mkFlashCard (Some (flashcard_seq (db w))) (story_pk story) text
              (if opt_list_truthy emb then emb else Some (embedding_of text))
              None /\
      flashcards (db w') = (flashcards (db w) ++ [row])%list /\
      FlashCard_objects_get (flashcard_seq (db w)) w' = (Returned row, w').
Proof.
  intros story text emb w Hf Hkeys.
  unfold FlashCard_objects_create.
  rewrite (FlashCard_save_no_fault _ w Hf).
  assert (Hprep : prepared (mkFlashCard None (story_pk story) text emb None)
                  = mkFlashCard None (story_pk story) text
                      (if opt_list_truthy emb then emb
                       else Some (embedding_of text)) None).
  { unfold prepared, has_embedding. cbn.
    destruct (opt_list_truthy emb); reflexivity. }
  rewrite Hprep, store_card_insert by reflexivity.
  cbn [fst snd card_story content_text embedding image_url].
  eexists _, _. split; [reflexivity|]. split; [reflexivity|].
  split; [reflexivity|].
  unfold FlashCard_objects_get.
  rewrite QuerySet_get_no_fault by exact Hf.
  cbn [db with_db flashcards with_flashcards logged].
  rewrite filter_app, (filter_key_fresh _ Hkeys). cbn.
  rewrite Z.eqb_refl. reflexivity.
Qed.

Lemma filter_replace_matching (A : Type) (f : A -> bool) (y : A) l x :
  f y = true -> filter f l = [x] ->
  filter f (map (fun c => if f c then y else c) l) = [y].
Proof.
  intros Hy. revert x. induction l as [|c l IH]; intros x H; [discriminate H|].
  simpl in *. destruct (f c) eqn:Hc.
  - rewrite Hy. inversion H as [[Hx Hl]]. f_equal.
    clear IH. induction l as [|c' l IH']; [reflexivity|].
    simpl in *. destruct (f c') eqn:Hc'; [discriminate Hl|].
    rewrite Hc'. now apply IH'.
  - rewrite Hc. now apply (IH x).
Qed.

Lemma map_replace_twice (A : Type) (f : A -> bool) (y z : A) l :
  f y = true ->
  map (fun c => if f c then z else c) (map (fun c => if f c then y else c) l)
  = map (fun c => if f c then z else c) l.
Proof.
  intro Hy. rewrite map_map. apply map_ext. intro c.
  destruct (f c) eqn:Hc; [now rewrite Hy | now rewrite Hc].
Qed.



(** The recalculation when no statement fails. *)
Lemma recalculate_no_fault k card w :
  faults w = [] ->
  filter (fun c => pk_is (card_pk c) k) (flashcards (db w)) = [card] ->
  exists w',
    recalculate_embedding_task k w = (Returned (EmbeddingRecalculated k), w') /\
    db w' = with_flashcards (db w)
              (map (fun c => if pk_is (card_pk c) k
                             then set_embedding card
                                    (Some (embedding_of (content_text card)))
                             else c)
                   (flashcards (db w)))
              (flashcard_seq (db w)) /\
    faults w' = [].
Proof.
  intros Hf Hsel.
  destruct (filter_singleton_holds _ _ _ _ Hsel) as [Hpk Hin].
  pose proof (pk_is_Some _ _ Hpk) as Hk.
  unfold recalculate_embedding_task, try_except, FlashCard_objects_get.
  assert (Hget : QuerySet_get "FlashCard"
            (fun d => filter (fun c => pk_is (card_pk c) k) (flashcards d)) w
          = (Returned card, w)).
  { rewrite QuerySet_get_no_fault by exact Hf. now rewrite Hsel. }
  rewrite (bind_Returned _ _ _ _ _ _ _ Hget).
  rewrite (bind_Returned _ _ _ _ _ _ _ (generate_embedding_eq _ w)).
  rewrite (bind_Returned _ _ _ _ _ _ _
             (FlashCard_save_no_fault _ (logged w _) Hf)).
  rewrite prepared_refreshed.
  cbn [db logged].
  rewrite (store_card_replace (db w)
             (set_embedding card (Some (embedding_of (content_text card)))) k
             Hk (existsb_of_In _ _ _ card Hin Hpk)).
  cbn. eexists. split; [reflexivity|]. split; [reflexivity | exact Hf].
Qed.


(** ** The other endpoints *)

Lemma only_faults_refl w : only_faults_consumed w w.
Proof. split; [apply same_store_refl | reflexivity]. Qed.

Lemma only_faults_trans w1 w2 w3 :
  only_faults_consumed w1 w2 -> only_faults_consumed w2 w3 ->
  only_faults_consumed w1 w3.
Proof.
  intros [Hs1 Hr1] [Hs2 Hr2]. split; [eapply same_store_trans; eassumption|].
  congruence.
Qed.

Lemma get_or_404_cases (A : Type) model (select : Database -> list A) w :
  (exists e w',
      try_except (QuerySet_get model select) is_ObjectDoesNotExist
        (fun _ => raise Http404) w = (Raised e, w') /\
      only_faults_consumed w w' /\
      (faults w = [] -> select (db w) = [] -> e = Http404 /\ w' = w)) \/
  (exists r w',
      try_except (QuerySet_get model select) is_ObjectDoesNotExist
        (fun _ => raise Http404) w = (Returned r, w') /\
      only_faults_consumed w w' /\ select (db w) = [r]).
Proof.
  unfold try_except.
  destruct (faults w) as [|f rest] eqn:Hf.
  - rewrite QuerySet_get_no_fault by exact Hf.
    destruct (select (db w)) as [|r [|r' more]]; cbn.
    + left. eexists _, _. split; [reflexivity|].
      split; [apply only_faults_refl | auto].
    + right. eexists _, _. split; [reflexivity|].
      split; [apply only_faults_refl | reflexivity].
    + left. eexists _, _. split; [reflexivity|].
      split; [apply only_faults_refl | discriminate].
  - destruct (QuerySet_get_cases A model select w)
      as [(e & w1 & Hrun & Hs & Hr & _) | (r & w1 & Hrun & Hs & Hr & Hsel)];
      rewrite Hrun.
    + left. destruct (is_ObjectDoesNotExist e); eexists _, _;
        (split; [reflexivity|]); (split; [split; assumption | discriminate]).
    + right. eexists _, _. split; [reflexivity|]. split; [split; assumption|].
      exact Hsel.
Qed.

(** X14. The image endpoint writes nothing and logs nothing.  It answers
    202 only for a card of a story of the caller, and then queues exactly
    one image task, for that card and the validated style, whose handle it
    returns; any other answer queues nothing.  With no statement failing, a
    card that is not the caller's (or does not exist) is answered 404 and
    the world stays as it was. *)
Theorem image_request_needs_an_owned_card :
  forall (user pk : Z) (style : option string) (w : World),
    let answer := fst (generate_image_view user pk style w) in
    let after := snd (generate_image_view user pk style w) in
    db after = db w /\ history after = history w /\
    records after = records w /\
    (forall msg task_id card_id,
        answer = ImageAccepted202 msg task_id card_id ->
        card_id = Some pk /\ task_id = List.length (queue w) /\
        (exists card,
            filter (fun c => pk_is (card_pk c) pk) (owned_cards user (db w))
            = [card]) /\
        exists validated,
          StyleField style = inr validated /\
          queue after
          = (queue w ++ [generate_image_job (Some pk) validated])%list) /\
    ((forall msg task_id card_id,
         answer <> ImageAccepted202 msg task_id card_id) ->
     queue after = queue w) /\
    (faults w = [] ->
     filter (fun c => pk_is (card_pk c) pk) (owned_cards user (db w)) = [] ->
     answer = ImageNotFound404 /\ after = w).
Proof.
  intros user pk style w. cbv zeta.
  unfold generate_image_view, get_owned_FlashCard_or_404.
  destruct (get_or_404_cases FlashCard "FlashCard"
              (fun d => filter (fun c => pk_is (card_pk c) pk) (owned_cards user d)) w)
    as [(e & w1 & Hrun & ((Hd & Hh & Hq) & Hr) & Hnone)
       | (card & w1 & Hrun & ((Hd & Hh & Hq) & Hr) & Hsel)].
  - rewrite (bind_Raised _ _ _ _ _ _ _ Hrun).
    destruct e; cbn [fst snd];
      (split; [exact Hd|]); (split; [exact Hh|]); (split; [exact Hr|]);
      (split; [intros m0 t0 c0 H; discriminate H|]);
      (split; [intros _; exact Hq|]);
      intros Hf Hn; destruct (Hnone Hf Hn) as [He Hw];
      first [discriminate He | now subst].
  - rewrite (bind_Returned _ _ _ _ _ _ _ Hrun).
    assert (Hk : card_pk card = Some pk).
    { destruct (filter_singleton_holds _ _ _ _ Hsel) as [Hp _].
      now apply pk_is_Some. }
    destruct (StyleField style) as [error|validated] eqn:Hstyle; cbn.
    + split; [exact Hd|]. split; [exact Hh|]. split; [exact Hr|].
      split; [intros msg task_id card_id H; discriminate H|].
      split; [intros _; exact Hq|].
      intros _ Hn. rewrite Hn in Hsel. discriminate Hsel.
    + split; [exact Hd|]. split; [exact Hh|]. split; [exact Hr|].
      split.
      * intros msg task_id card_id H. inversion H; subst.
        rewrite Hk, Hq. repeat split; eauto.
      * split.
        -- intro H. exfalso. eapply H. reflexivity.
        -- intros _ Hn. rewrite Hn in Hsel. discriminate Hsel.
Qed.

Lemma read_rows_cases (A : Type) (select : Database -> list A) w :
  exists o w',
    (db_statement ;;; d <- read_db ;; ret (select d)) w = (o, w') /\
    only_faults_consumed w w' /\
    (forall rows, o = Returned rows -> rows = select (db w)).
Proof.
  unfold bind, db_statement, read_db, ret.
  destruct (faults w) as [|[msg|] rest]; cbn; eexists _, _;
    (split; [reflexivity|]); (split; [repeat split|]);
    intros rows H; now inversion H.
Qed.

Lemma FlashCard_objects_get_cases card_id w :
  exists o w',
    FlashCard_objects_get card_id w = (o, w') /\
    only_faults_consumed w w' /\
    (forall card, o = Returned card -> card_pk card = Some card_id).
Proof.
  unfold FlashCard_objects_get.
  destruct (QuerySet_get_cases FlashCard "FlashCard"
              (fun d => filter (fun c => pk_is (card_pk c) card_id) (flashcards d)) w)
    as [(e & w1 & Hrun & Hs & Hr & _) | (r & w1 & Hrun & Hs & Hr & Hsel)];
    eexists _, _; (split; [exact Hrun|]); (split; [split; assumption|]).
  - intros card H. discriminate H.
  - intros card H. inversion H; subst.
    destruct (filter_singleton_holds _ _ _ _ Hsel) as [Hp _].
    now apply pk_is_Some.
Qed.

Lemma graph_edges_cases conns w :
  exists o w',
    graph_edges conns w = (o, w') /\
    only_faults_consumed w w' /\
    (forall edges, o = Returned edges -> edges = map edge_of conns).
Proof.
  revert w. induction conns as [|conn conns IH]; intro w; cbn [graph_edges].
  - eexists _, _. split; [reflexivity|]. split; [apply only_faults_refl|].
    intros edges H. now inversion H.
  - destruct (FlashCard_objects_get_cases (source_card conn) w)
      as (o1 & w1 & H1 & Hs1 & Hk1).
    destruct o1 as [source|e];
      [rewrite (bind_Returned _ _ _ _ _ _ _ H1)
      | rewrite (bind_Raised _ _ _ _ _ _ _ H1); eexists _, _;
        (split; [reflexivity|]); split; [exact Hs1 | discriminate]].
    destruct (FlashCard_objects_get_cases (target_card conn) w1)
      as (o2 & w2 & H2 & Hs2 & Hk2).
    destruct o2 as [target|e];
      [rewrite (bind_Returned _ _ _ _ _ _ _ H2)
      | rewrite (bind_Raised _ _ _ _ _ _ _ H2); eexists _, _;
        (split; [reflexivity|]);
        split; [eapply only_faults_trans; eassumption | discriminate]].
    destruct (IH w2) as (o3 & w3 & H3 & Hs3 & Hk3).
    assert (Hs : only_faults_consumed w w3).
    { eapply only_faults_trans; [|exact Hs3].
      eapply only_faults_trans; eassumption. }
    destruct o3 as [edges|e];
      [rewrite (bind_Returned _ _ _ _ _ _ _ H3)
      | rewrite (bind_Raised _ _ _ _ _ _ _ H3); eexists _, _;
        (split; [reflexivity|]); split; [exact Hs | discriminate]].
    eexists _, _. split; [reflexivity|]. split; [exact Hs|].
    intros es H. inversion H; subst es. cbn.
    rewrite (Hk1 source eq_refl), (Hk2 target eq_refl), (Hk3 edges eq_refl).
    reflexivity.
Qed.

(** X15. The graph endpoint only reads: it leaves the store, its history,
    the queue and the log as they were.  When it answers with a graph, the
    story is one of the caller's, the nodes are exactly the cards of that
    story, in order, each with its id, text and image, and the edges are
    exactly the connections of that story, each with the ids of its two
    cards: as many nodes as the story has cards, as many edges as it has
    connections, and nothing of another story.  With no statement failing,
    a story that is not the caller's (or does not exist) is answered 404. *)
Theorem story_graph_shows_the_story_only :
  forall (user pk : Z) (w : World),
    let answer := fst (story_graph_view user pk w) in
    let after := snd (story_graph_view user pk w) in
    only_faults_consumed w after /\
    (forall nodes edges,
        answer = GraphData nodes edges ->
        (exists story,
            filter (fun s => story_pk s =? pk)
                   (filter (fun s => owner s =? user) (stories (db w)))
            = [story]) /\
        nodes = map node_of (cards_of_story pk (db w)) /\
        edges = map edge_of (connections_of_story pk (db w)) /\
        List.length nodes = List.length (cards_of_story pk (db w)) /\
        List.length edges = List.length (connections_of_story pk (db w))) /\
    (faults w = [] ->
     filter (fun s => story_pk s =? pk)
            (filter (fun s => owner s =? user) (stories (db w))) = [] ->
     answer = GraphNotFound404).
Proof.
  intros user pk w. cbv zeta.
  unfold story_graph_view, get_owned_Story_or_404.
  destruct (get_or_404_cases Story "Story"
              (fun d => filter (fun s => story_pk s =? pk)
                               (filter (fun s => owner s =? user) (stories d))) w)
    as [(e & w1 & Hrun & Hs1 & Hnone) | (story & w1 & Hrun & Hs1 & Hsel)].
  { rewrite (bind_Raised _ _ _ _ _ _ _ Hrun).
    destruct e; cbn [fst snd]; (split; [exact Hs1|]);
      (split; [intros nodes edges H; discriminate H|]);
      intros Hf Hn; destruct (Hnone Hf Hn) as [He _];
      first [discriminate He | reflexivity]. }
  rewrite (bind_Returned _ _ _ _ _ _ _ Hrun).
  assert (Hpk : story_pk story = pk).
  { destruct (filter_singleton_holds _ _ _ _ Hsel) as [Hp _].
    now apply Z.eqb_eq. }
  assert (Hnot404 : forall a : GraphResponse,
             faults w = [] ->
             filter (fun s => story_pk s =? pk)
                    (filter (fun s => owner s =? user) (stories (db w))) = [] ->
             a = GraphNotFound404).
  { intros a _ Hn. rewrite Hn in Hsel. discriminate Hsel. }
  unfold story_flashcards.
  destruct (read_rows_cases FlashCard
              (fun d => filter (fun c => card_story c =? story_pk story)
                               (flashcards d)) w1)
    as (o2 & w2 & H2 & Hs2 & Hrows2).
  assert (Hs02 : only_faults_consumed w w2)
    by (eapply only_faults_trans; eassumption).
  destruct o2 as [cards|e];
    [rewrite (bind_Returned _ _ _ _ _ _ _ H2)
    | rewrite (bind_Raised _ _ _ _ _ _ _ H2); destruct e; cbn [fst snd];
      (split; [exact Hs02|]); split;
      first [intros nodes edges H; discriminate H | apply Hnot404]].
  unfold story_connections.
  destruct (read_rows_cases CardConnection
              (fun d => filter (fun c => conn_story c =? story_pk story)
                               (connections d)) w2)
    as (o3 & w3 & H3 & Hs3 & Hrows3).
  assert (Hs03 : only_faults_consumed w w3)
    by (eapply only_faults_trans; eassumption).
  destruct o3 as [conns|e];
    [rewrite (bind_Returned _ _ _ _ _ _ _ H3)
    | rewrite (bind_Raised _ _ _ _ _ _ _ H3); destruct e; cbn [fst snd];
      (split; [exact Hs03|]); split;
      first [intros nodes edges H; discriminate H | apply Hnot404]].
  destruct (graph_edges_cases conns w3) as (o4 & w4 & H4 & Hs4 & Hedges).
  assert (Hs04 : only_faults_consumed w w4)
    by (eapply only_faults_trans; eassumption).
  destruct o4 as [edges|e];
    [rewrite (bind_Returned _ _ _ _ _ _ _ H4)
    | rewrite (bind_Raised _ _ _ _ _ _ _ H4); destruct e; cbn [fst snd];
      (split; [exact Hs04|]); split;
      first [intros nodes edges H; discriminate H | apply Hnot404]].
  cbn [fst snd ret]. split; [exact Hs04|]. split; [|apply Hnot404].
  intros nodes es H. inversion H; subst nodes es.
  rewrite (Hrows2 cards eq_refl), (Hedges edges eq_refl), (Hrows3 conns eq_refl).
  destruct Hs1 as [(Hd1 & _) _]. destruct Hs02 as [(Hd2 & _) _].
  rewrite Hd1, Hd2, Hpk.
  split; [exists story; exact Hsel|].
  unfold cards_of_story, connections_of_story.
  repeat split; now rewrite ?length_map.
Qed.

(** X16. A turn submitted to a story that is not the caller's (or does not
    exist) is answered 404, whatever the body of the request: nothing is
    validated, nothing is dispatched and the world stays as it was (the
    database answering). *)
Theorem turn_submission_to_a_foreign_story :
  forall (user story_id : Z) (data : TurnRequest) (w : World),
    faults w = [] ->
    filter (fun s => (story_pk s =? story_id) && (owner s =? user))
           (stories (db w)) = [] ->
    FlashCardCreateView_create user story_id data w = (NotFound404, w).
Proof.
  intros user story_id data w Hf Hnone.
  unfold FlashCardCreateView_create, respond, get_Story_or_404.
  destruct (get_or_404_cases Story "Story"
              (fun d => filter (fun s => (story_pk s =? story_id)
                                         && (owner s =? user)) (stories d)) w)
    as [(e & w1 & Hrun & _ & H404) | (story & w1 & Hrun & _ & Hsel)].
  - destruct (H404 Hf Hnone) as [-> ->].
    now rewrite (bind_Raised _ _ _ _ _ _ _ Hrun).
  - rewrite Hnone in Hsel. discriminate Hsel.
Qed.

(** ** The admin's preview *)

Lemma substring_0_length n s :
  String.length (substring 0 n s) = Nat.min n (String.length s).
Proof.
  revert s. induction n as [|n IH]; intros [|c s]; simpl; try reflexivity.
  now rewrite IH.
Qed.

Lemma substring_0_all n s :
  (String.length s <= n)%nat -> substring 0 n s = s.
Proof.
  revert s. induction n as [|n IH]; intros [|c s]; simpl; intro H;
    try reflexivity; try lia.
  rewrite IH; [reflexivity | lia].
Qed.

Lemma substring_0_app n s t :
  (n <= String.length s)%nat -> substring 0 n (s ++ t) = substring 0 n s.
Proof.
  revert s. induction n as [|n IH]; intros [|c s]; simpl; intro H;
    try reflexivity; try lia.
  - now destruct t.
  - rewrite IH; [reflexivity | lia].
Qed.

(** X17. The admin's preview of a card is never longer than 103
    characters: a text of at most 100 characters is shown whole; a longer
    one is cut to its first 100 characters followed by three dots, so the
    preview is then exactly 103 characters long and starts like the text. *)
Theorem content_preview_is_bounded :
  forall (obj : FlashCard),
    (String.length (content_preview obj) <= 103)%nat /\
    ((String.length (content_text obj) <= 100)%nat ->
     content_preview obj = content_text obj) /\
    ((100 < String.length (content_text obj))%nat ->
     String.length (content_preview obj) = 103%nat /\
     substring 0 100 (content_preview obj)
     = substring 0 100 (content_text obj)).
Proof.
  intro obj. unfold content_preview.
  destruct (100 <? String.length (content_text obj))%nat eqn:Hlong.
  - apply Nat.ltb_lt in Hlong.
    assert (Hlen : String.length (substring 0 100 (content_text obj) ++ "...")
                   = 103%nat).
    { rewrite string_length_app, substring_0_length.
      rewrite Nat.min_l by lia. reflexivity. }
    split; [rewrite Hlen; lia|]. split; [lia|].
    intros _. split; [exact Hlen|].
    rewrite substring_0_app.
    + apply substring_0_all. rewrite substring_0_length. lia.
    + rewrite substring_0_length. lia.
  - apply Nat.ltb_ge in Hlong.
    split; [lia|]. split; [reflexivity | lia].
Qed.

(** ** Tasks whose target is missing *)

Lemma QuerySet_get_missing (A : Type) model (select : Database -> list A) w :
  faults w = [] -> select (db w) = [] ->
  QuerySet_get model select w = (Raised (DoesNotExist model), w).
Proof.
  intros Hf Hs. rewrite QuerySet_get_no_fault by exact Hf. now rewrite Hs.
Qed.

(** X18. A task whose story or card does not exist reports it and does
    nothing else (the database answering).  The turn task and the
    initial-story task for a story id no story has return the failure
    "Story matching query does not exist."; the image task and the
    recalculation task for a card id no card has return the failure
    "FlashCard matching query does not exist.".  In each case the world
    changes by one ERROR record only. *)
Theorem task_for_a_missing_target_reports_it :
  forall (w : World),
    faults w = [] ->
    (forall story_id prompt parent,
        filter (fun s => story_pk s =? story_id) (stories (db w)) = [] ->
        generate_story_segment_task story_id prompt parent w
        = (Returned (TaskFailed "Story matching query does not exist."),
           logged w [(ERROR, "Error generating story segment for story "
                             ++ str_int story_id
                             ++ ": Story matching query does not exist.")])) /\
    (forall story_id,
        filter (fun s => story_pk s =? story_id) (stories (db w)) = [] ->
        create_initial_story_task story_id w
        = (Returned (TaskFailed "Story matching query does not exist."),
           logged w [(ERROR, "Error creating initial story for story "
                             ++ str_int story_id
                             ++ ": Story matching query does not exist.")])) /\
    (forall card_id style,
        filter (fun c => pk_is (card_pk c) card_id) (flashcards (db w)) = [] ->
        generate_image_task card_id style w
        = (Returned (TaskFailed "FlashCard matching query does not exist."),
           logged w [(ERROR, "Error generating image for flashcard "
                             ++ str_int card_id
                             ++ ": FlashCard matching query does not exist.")])) /\
    (forall card_id,
        filter (fun c => pk_is (card_pk c) card_id) (flashcards (db w)) = [] ->
        recalculate_embedding_task card_id w
        = (Returned (TaskFailed "FlashCard matching query does not exist."),
           logged w [(ERROR, "Error recalculating embedding for flashcard "
                             ++ str_int card_id
                             ++ ": FlashCard matching query does not exist.")])).
Proof.
  intros w Hf. repeat split.
  - intros story_id prompt parent Hnone.
    unfold generate_story_segment_task, generate_story_segment_body,
      try_except, Story_objects_get.
    rewrite (bind_Raised _ _ _ _ _ _ _
               (QuerySet_get_missing Story "Story" _ w Hf Hnone)).
    reflexivity.
  - intros story_id Hnone.
    unfold create_initial_story_task, try_except, Story_objects_get.
    rewrite (bind_Raised _ _ _ _ _ _ _
               (QuerySet_get_missing Story "Story" _ w Hf Hnone)).
    reflexivity.
  - intros card_id style Hnone.
    unfold generate_image_task, try_except, FlashCard_objects_get.
    rewrite (bind_Raised _ _ _ _ _ _ _
               (QuerySet_get_missing FlashCard "FlashCard" _ w Hf Hnone)).
    reflexivity.
  - intros card_id Hnone.
    unfold recalculate_embedding_task, try_except, FlashCard_objects_get.
    rewrite (bind_Raised _ _ _ _ _ _ _
               (QuerySet_get_missing FlashCard "FlashCard" _ w Hf Hnone)).
    reflexivity.
Qed.

(** ** The errors of a submission *)

Lemma validate_parent_known story_id pid c w :
  faults w = [] ->
  parent_lookup story_id pid (db w) = [c] ->
  validate_parent_card_id story_id (Some pid) w = (Returned (Some pid), w).
Proof.
  intros Hf Hsel. unfold validate_parent_card_id.
  destruct (pid =? 0); [reflexivity|].
  unfold FlashCard_objects_get_in_story, try_except, bind at 1.
  unfold bind at 1. rewrite QuerySet_get_no_fault by exact Hf.
  unfold parent_lookup in Hsel. rewrite Hsel. reflexivity.
Qed.

Lemma serializer_validate_with (story_id : Z) (data : TurnRequest) w o :
  validate_parent_card_id story_id (parent_card_id data) w = (o, w) ->
  FlashCardCreateSerializer_validate story_id data w
  = (match o, CharField (user_prompt data) with
     | Returned pid, inr prompt => Returned (inr (prompt, pid))
     | Returned _, inl e => Returned (inl [("user_prompt", e)])
     | Raised (ValidationError m), inr _ =>
         Returned (inl [("parent_card_id", m)])
     | Raised (ValidationError m), inl e =>
         Returned (inl [("parent_card_id", m); ("user_prompt", e)])
     | Raised e, _ => Raised e
     end, w).
Proof.
  intro H. unfold FlashCardCreateSerializer_validate, try_except.
  unfold bind at 1. unfold bind at 1. rewrite H.
  destruct o as [pid|e].
  - cbn. destruct (CharField (user_prompt data)); reflexivity.
  - destruct e; cbn; try reflexivity.
    destruct (CharField (user_prompt data)); reflexivity.
Qed.

(** X19. A submitted turn whose [user_prompt] fails its field validation
    is answered 400 and dispatches nothing, also when its parent is absent
    or names a card of the story: the answer then carries the error of the
    [user_prompt] field.  When the parent is unknown as well, the answer
    carries the errors of both fields, [parent_card_id] first.  (The
    caller's story in place, no statement failing.) *)
Theorem turn_submission_reports_field_errors :
  forall (user story_id : Z) (data : TurnRequest) (w : World) (story : Story)
         (error : string),
    faults w = [] ->
    filter (fun s => (story_pk s =? story_id) && (owner s =? user))
           (stories (db w)) = [story] ->
    CharField (user_prompt data) = inl error ->
    ((forall pid, parent_card_id data = Some pid -> pid <> 0 ->
                  exists c, parent_lookup story_id pid (db w) = [c]) ->
     FlashCardCreateView_create user story_id data w
     = (BadRequest400 [("user_prompt", error)], w)) /\
    (forall pid,
        parent_card_id data = Some pid -> pid <> 0 ->
        parent_lookup story_id pid (db w) = [] ->
        FlashCardCreateView_create user story_id data w
        = (BadRequest400 [("parent_card_id", unknown_parent);
                          ("user_prompt", error)], w)).
Proof.
  intros user story_id data w story error Hf Hstory Herr.
  unfold FlashCardCreateView_create, respond.
  rewrite (bind_Returned _ _ _ _ _ _ _
             (get_Story_or_404_found _ _ _ _ Hf Hstory)).
  split.
  - intro Hknown.
    assert (Hv : validate_parent_card_id story_id (parent_card_id data) w
                 = (Returned (parent_card_id data), w)).
    { destruct (parent_card_id data) as [pid|] eqn:Hp; [|reflexivity].
      destruct (Z.eq_dec pid 0) as [-> | Hne]; [reflexivity|].
      destruct (Hknown pid eq_refl Hne) as (c & Hc).
      exact (validate_parent_known _ _ _ _ Hf Hc). }
    pose proof (serializer_validate_with _ _ _ _ Hv) as Hs.
    rewrite Herr in Hs.
    now rewrite (bind_Returned _ _ _ _ _ _ _ Hs).
  - intros pid Hp Hne Hnone.
    assert (Hv : validate_parent_card_id story_id (parent_card_id data) w
                 = (Raised (ValidationError unknown_parent), w)).
    { rewrite Hp. exact (validate_parent_unknown _ _ _ Hf Hne Hnone). }
    pose proof (serializer_validate_with _ _ _ _ Hv) as Hs.
    rewrite Herr in Hs.
    now rewrite (bind_Returned _ _ _ _ _ _ _ Hs).
Qed.

(** ** Running a task again *)


(** X20. Recalculating twice is recalculating once: with no statement
    failing, a second run of the recalculation task for the same card
    succeeds again and leaves the store exactly as the first run left
    it. *)
Theorem recalculation_is_idempotent :
  forall (k : Z) (card : FlashCard) (w : World),
    faults w = [] ->
    filter (fun c => pk_is (card_pk c) k) (flashcards (db w)) = [card] ->
    exists w1 w2,
      recalculate_embedding_task k w = (Returned (EmbeddingRecalculated k), w1) /\
      recalculate_embedding_task k w1 = (Returned (EmbeddingRecalculated k), w2) /\
      db w2 = db w1.
Proof.
  intros k card w Hf Hsel.
  destruct (recalculate_no_fault k card w Hf Hsel) as (w1 & Hrun1 & Hdb1 & Hf1).
  destruct (filter_singleton_holds _ _ _ _ Hsel) as [Hpk _].
  set (card1 := set_embedding card (Some (embedding_of (content_text card)))) in *.
  assert (Hpk1 : pk_is (card_pk card1) k = true) by exact Hpk.
  assert (Hsel1 : filter (fun c => pk_is (card_pk c) k) (flashcards (db w1))
                  = [card1]).
  { rewrite Hdb1. cbn [flashcards with_flashcards].
    exact (filter_replace_matching _ (fun c => pk_is (card_pk c) k) _ _ _
             Hpk1 Hsel). }
  destruct (recalculate_no_fault k card1 w1 Hf1 Hsel1) as (w2 & Hrun2 & Hdb2 & _).
  exists w1, w2. split; [exact Hrun1|]. split; [exact Hrun2|].
  rewrite Hdb2, Hdb1. cbn [flashcards with_flashcards flashcard_seq].
  rewrite (map_replace_twice _ (fun c => pk_is (card_pk c) k) _ _ _ Hpk1).
  reflexivity.
Qed.


End StoryScape.

(** * A concrete instance *)

Module Sample.

Local Open Scope string_scope.
Local Open Scope Z_scope.

(** Floats stand for themselves as integers here; the model encodes a text
    as 384 copies of its length. *)
Definition encode (text : string) : Exception + list Z :=
  inr (repeat (Z.of_nat (String.length text)) 384).

Definition loaded : option (string -> Exception + list Z) := Some encode.

Definition nearer (query x y : list Z) : bool :=
  Z.abs (hd 0 x - hd 0 query) <=? Z.abs (hd 0 y - hd 0 query).

Definition CharField (value : option string) : string + string :=
  match value with
  | None => inl "This field is required."
  | Some s => if String.eqb s "" then inl "This field may not be blank." else inr s
  end.

Definition story1 : Story := mkStory 1 7 "T" "Once upon a time".
Definition story2 : Story := mkStory 2 7 "U" "Long ago".

(** A store with one story and no card. *)
Definition new_story : World (float := Z) :=
  mkWorld (mkDatabase [story1] [] [] 1 1) [] [] [] [].

(** A store with two stories and three cards. *)
Definition knight : FlashCard (float := Z) :=
  mkFlashCard (Some 1) 1 "A brave knight" (Some (repeat 14 384)) None.
Definition forest : FlashCard (float := Z) :=
  mkFlashCard (Some 2) 2 "A magical forest" (Some (repeat 16 384)) None.
Definition dragon : FlashCard (float := Z) :=
  mkFlashCard (Some 3) 1 "A dragon" (Some (repeat 8 384)) None.

Definition two_stories : World (float := Z) :=
  mkWorld (mkDatabase [story1; story2] [knight; forest; dragon] [] 4 1)
          [] [] [] [].

(** The same store when the fourth statement a task sends fails. *)
Definition failing_save : World (float := Z) :=
  mkWorld (mkDatabase [story1] [] [] 1 1) []
          [None; None; None; Some "connection lost"] [] [].

Definition continuation : string :=
  "Based on the context and your prompt 'continue', here is the next segment of the story...".

(** The model of the instance encodes to 384 components. *)
Lemma loaded_dimension : model_dimension_384 loaded.
Proof.
  intros enc text v Hm He. injection Hm as <-.
  unfold encode in He. injection He as <-. reflexivity.
Defined.

(** The turn task and the endpoint of the instance. *)
Definition turn (story_id : Z) (prompt : string) (parent : option Z)
  (w : World (float := Z)) : Outcome TaskResult * World :=
  generate_story_segment_task 0 loaded nearer story_id prompt parent w.

Definition submit (user story_id : Z) (data : TurnRequest)
  (w : World (float := Z)) : Response * World :=
  FlashCardCreateView_create CharField user story_id data w.

(** A search in story 1 of the store with two stories, story 2 being the
    other one. *)
Lemma rag_search_stays_in_story_witness :
  exists cards w',
    perform_rag_search nearer 1 (repeat 8 384) 5 two_stories
    = (Returned (map content_text cards), w') /\
    db w' = db two_stories /\
    Forall (fun c => In c (flashcards (db two_stories)) /\
                     card_story c = 1 /\ card_story c <> 2) cards /\
    (List.length cards <= Z.to_nat 5)%nat.
Proof.
  apply (rag_search_stays_in_story nearer 1 2 (repeat 8 384) 5 two_stories).
  discriminate.
Defined.

(** A first turn in the new story: the card is written with the embedding
    of the prompt (8 letters), then with that of its own text (89). *)
Lemma turn_embedding_written_twice_witness :
  exists d1 d2 rest,
    history (snd (turn 1 "continue" None new_story))
    = (history new_story ++ d1 :: d2 :: rest)%list /\
    flashcards d1
    = [mkFlashCard (Some 1) 1 continuation (Some (repeat 8 384)) None] /\
    flashcards d2
    = [mkFlashCard (Some 1) 1 continuation (Some (repeat 89 384)) None].
Proof.
  destruct (turn_embedding_written_twice 0 loaded nearer 1 "continue" None
              new_story (Some 1) continuation
              (snd (turn 1 "continue" None new_story)))
    as (d1 & d2 & rest & Hh & H1 & H2 & _).
  - exact loaded_dimension.
  - reflexivity.
  - vm_compute. reflexivity.
  - exists d1, d2, rest. split; [exact Hh|]. split.
    + rewrite H1. vm_compute. reflexivity.
    + rewrite H2. vm_compute. reflexivity.
Defined.

(** The loaded model keeps its contract; the empty text is embedded. *)
Lemma generate_embedding_always_384_witness :
  exists v msgs,
    generate_embedding 0 loaded "" new_story = (Returned v, logged new_story msgs) /\
    List.length v = 384%nat /\
    (loaded = None -> v = repeat 0 384) /\
    (forall encode e,
        loaded = Some encode -> encode "" = inl e -> v = repeat 0 384).
Proof.
  exact (generate_embedding_always_384 0 loaded loaded_dimension "" new_story).
Defined.


(** A turn whose second write fails: the failure is reported and the card
    of the first write stays. *)
Lemma turn_task_never_raises_witness :
  keys_below_seq (db failing_save) = true /\
  exists r w',
    turn 1 "continue" None failing_save = (Returned r, w') /\
    r = TaskFailed "connection lost" /\
    connections (db w') = [] /\
    exists c,
      db w' = store_with_card (db failing_save) c /\
      card_story c = 1 /\ card_pk c = Some 1.
Proof.
  split; [reflexivity|].
  destruct (turn_task_never_raises 0 loaded nearer 1 "continue" None failing_save)
    as (r & w' & Hrun & _ & _ & Hfailed).
  assert (Hr : r = TaskFailed "connection lost").
  { assert (H : fst (turn 1 "continue" None failing_save)
                = Returned (TaskFailed "connection lost"))
      by (vm_compute; reflexivity).
    unfold turn in H. rewrite Hrun in H. now inversion H. }
  exists r, w'. split; [exact Hrun|]. split; [exact Hr|].
  destruct (Hfailed eq_refl) as [Hconn Hcards]; [now rewrite Hr|].
  split; [exact Hconn|].
  destruct Hcards as [[Hdb _] | (c & Hdb & Hs & Hk & _)].
  - exfalso.
    assert (H : flashcards (db (snd (turn 1 "continue" None failing_save))) <> [])
      by (vm_compute; discriminate).
    unfold turn in H. rewrite Hrun in H. cbn [snd] in H. rewrite Hdb in H.
    now apply H.
  - exists c. auto.
Defined.


(** The store after the initial task ran on the new story. *)
Lemma stored_cards_always_embedded_witness :
  all_embedded
    (db (snd (create_initial_story_task 0 loaded 1 new_story))).
Proof.
  apply (proj2 (stored_cards_always_embedded 0 loaded nearer CharField
                  loaded_dimension)).
  apply reachable_step with (w := new_story).
  - apply reachable_start; reflexivity.
  - apply step_initial.
Defined.




(** C3. The turn run with the id its new card receives as parent id (1 in
    a store whose first card is still to come) finds the new card as its
    own parent and stores the connection 1 -> 1; no exception is raised,
    though [CardConnection.clean] rejects this very pair with
    ValidationError. *)
Lemma turn_links_new_card_to_itself :
  fst (turn 1 "continue" (Some 1) new_story)
  = Returned (SegmentGenerated (Some 1) continuation) /\
  connections (db (snd (turn 1 "continue" (Some 1) new_story)))
  = [mkCardConnection (Some 1) 1 1 1] /\
  exists card,
    flashcards (db (snd (turn 1 "continue" (Some 1) new_story))) = [card] /\
    CardConnection_clean card card
    = inl (ValidationError "A card cannot connect to itself").
Proof.
  split; [vm_compute; reflexivity|]. split; [vm_compute; reflexivity|].
  eexists. split; vm_compute; reflexivity.
Qed.

End Sample.

(** * The instance, continued *)

Module SampleMore.

Import Sample.

Local Open Scope string_scope.
Local Open Scope Z_scope.

(** A style is accepted as it is. *)
Definition StyleField (value : option string) : string + option string :=
  inr value.

(** The store with two stories after the card 3 was edited: the new text
    with the embedding of the old one. *)
Definition edited : World (float := Z) :=
  mkWorld (mkDatabase [story1; story2]
             [knight; forest;
              mkFlashCard (Some 3) 1 "A red dragon" (Some (repeat 8 384)) None]
             [] 4 1)
          [] [] [] [].

(** The store with two stories and a connection in each. *)
Definition linked : World (float := Z) :=
  mkWorld (mkDatabase [story1; story2] [knight; forest; dragon]
             [mkCardConnection (Some 1) 1 1 3; mkCardConnection (Some 2) 2 2 2]
             4 3)
          [] [] [] [].

(** The ordering of the instance is a total preorder. *)
Lemma nearer_total_preorder : total_preorder nearer.
Proof.
  split; unfold nearer.
  - intros q x y H. apply Z.leb_gt in H. apply Z.leb_le. lia.
  - intros q x y z H1 H2. apply Z.leb_le in H1, H2. apply Z.leb_le. lia.
Defined.


(** Story 1 has two cards; five are asked for. *)
Lemma rag_search_result_count_witness :
  exists texts,
    perform_rag_search nearer 1 (repeat 8 384) 5 two_stories
    = (Returned texts, two_stories) /\
    List.length texts
    = Nat.min (Z.to_nat 5) (List.length (cards_of_story 1 (db two_stories))).
Proof.
  apply (rag_search_result_count nearer 1 (repeat 8 384) 5 two_stories).
  - reflexivity.
  - lia.
Defined.


(** The two nearest cards of story 1. *)
Lemma rag_search_returns_the_nearest_witness :
  exists ranked,
    Permutation ranked (cards_of_story 1 (db two_stories)) /\
    StronglySorted (fun a b => closer nearer (repeat 8 384) a b = true) ranked /\
    perform_rag_search nearer 1 (repeat 8 384) 1 two_stories
    = (Returned (map content_text (firstn (Z.to_nat 1) ranked)), two_stories) /\
    forall a b,
      In a (firstn (Z.to_nat 1) ranked) ->
      In b (skipn (Z.to_nat 1) ranked) ->
      closer nearer (repeat 8 384) a b = true.
Proof.
  apply (rag_search_returns_the_nearest nearer nearer_total_preorder 1
           (repeat 8 384) 1 two_stories).
  - reflexivity.
  - lia.
Defined.

(** The recalculation for the edited card 3: twelve letters now. *)
Lemma recalculation_refreshes_the_embedding_witness :
  flashcards (db (snd (recalculate_embedding_task 0 loaded 3 edited)))
  = [knight; forest;
     mkFlashCard (Some 3) 1 "A red dragon" (Some (repeat 12 384)) None].
Proof.
  destruct (recalculation_refreshes_the_embedding 0 loaded 3 edited 3
              (snd (recalculate_embedding_task 0 loaded 3 edited)))
    as (_ & card & _ & _ & Hcards & _).
  - vm_compute. reflexivity.
  - rewrite Hcards. vm_compute. reflexivity.
Defined.

(** The image task for a card that does not exist. *)
Lemma single_write_tasks_fail_cleanly_witness :
  exists r w',
    generate_image_task 0 loaded 9 None new_story = (Returned r, w') /\
    r = TaskFailed "FlashCard matching query does not exist." /\
    same_store new_story w'.
Proof.
  destruct (proj1 (single_write_tasks_fail_cleanly 0 loaded new_story) 9 None)
    as (r & w' & Hrun & Hclean).
  assert (Hr : r = TaskFailed "FlashCard matching query does not exist.").
  { assert (H : fst (generate_image_task 0 loaded 9 None new_story)
                = Returned (TaskFailed "FlashCard matching query does not exist."))
      by (vm_compute; reflexivity).
    rewrite Hrun in H. now inversion H. }
  exists r, w'. split; [exact Hrun|]. split; [exact Hr|].
  apply Hclean. now rewrite Hr.
Defined.

(** The initial task on the new story. *)
Lemma initial_task_creates_the_first_card_witness :
  exists story,
    filter (fun s => story_pk s =? 1) (stories (db new_story)) = [story] /\
    flashcards (db (snd (create_initial_story_task 0 loaded 1 new_story)))
    = [mkFlashCard (Some 1) 1
         (generate_story_segment "" "Once upon a time")
         (Some (repeat 97 384)) None].
Proof.
  destruct (initial_task_creates_the_first_card 0 loaded 1 new_story (Some 1)
              (generate_story_segment "" "Once upon a time")
              (snd (create_initial_story_task 0 loaded 1 new_story)))
    as (story & Hstory & _ & _ & Hcards & _).
  - vm_compute. reflexivity.
  - exists story. split; [exact Hstory|]. rewrite Hcards. vm_compute. reflexivity.
Defined.

(** A turn in story 1 that names the knight as its parent. *)
Lemma turn_with_parent_creates_one_edge_witness :
  exists text w',
    turn 1 "continue" (Some 1) two_stories
    = (Returned (SegmentGenerated (Some 4) text), w') /\
    flashcards (db w')
    = [knight; forest; dragon;
       mkFlashCard (Some 4) 1 text (Some (embedding_of 0 loaded text)) None] /\
    connections (db w') = [mkCardConnection (Some 1) 1 1 4].
Proof.
  apply (turn_with_parent_creates_one_edge 0 loaded nearer 1 "continue" 1
           two_stories story1 knight); try reflexivity.
  discriminate.
Defined.

(** The new story gets its first card and then a second one. *)
Lemma first_card_then_turn_gives_one_edge_witness :
  exists text1 w1 text2 w2,
    create_initial_story_task 0 loaded 1 new_story
    = (Returned (SegmentGenerated (Some 1) text1), w1) /\
    turn 1 "continue" (Some 1) w1
    = (Returned (SegmentGenerated (Some 2) text2), w2) /\
    flashcards (db w2)
    = [mkFlashCard (Some 1) 1 text1 (Some (embedding_of 0 loaded text1)) None;
       mkFlashCard (Some 2) 1 text2 (Some (embedding_of 0 loaded text2)) None] /\
    connections (db w2) = [mkCardConnection (Some 1) 1 1 2].
Proof.
  apply (first_card_then_turn_gives_one_edge 0 loaded nearer 1 "continue"
           new_story story1); try reflexivity.
Defined.

(** The same turn, read backwards. *)
Lemma turn_links_within_the_story_witness :
  connections (db (snd (turn 1 "continue" (Some 1) two_stories)))
  = connections (db two_stories) \/
  exists pid parent_card new_card,
    Some 1 = Some pid /\ pid <> 0 /\
    connections (db (snd (turn 1 "continue" (Some 1) two_stories)))
    = [mkCardConnection (Some 1) 1 pid 4] /\
    In parent_card (flashcards (db (snd (turn 1 "continue" (Some 1) two_stories)))) /\
    card_pk parent_card = Some pid /\ card_story parent_card = 1 /\
    In new_card (flashcards (db (snd (turn 1 "continue" (Some 1) two_stories)))) /\
    card_pk new_card = Some 4 /\ card_story new_card = 1 /\
    (pid <> 4 ->
     In parent_card (flashcards (db two_stories)) /\
     CardConnection_clean parent_card new_card = inr tt).
Proof.
  apply (turn_links_within_the_story 0 loaded nearer 1 "continue" (Some 1)
           two_stories (fst (turn 1 "continue" (Some 1) two_stories))).
  - reflexivity.
  - apply surjective_pairing.
Defined.

(** A card created without an embedding in the new story. *)
Lemma created_card_is_found_again_witness :
  exists row w',
    FlashCard_objects_create 0 loaded story1 "A test" None new_story
    = (Returned row, w') /\
    row = mkFlashCard (Some 1) 1 "A test" (Some (embedding_of 0 loaded "A test"))
            None /\
    flashcards (db w') = [row] /\
    FlashCard_objects_get 1 w' = (Returned row, w').
Proof.
  apply (created_card_is_found_again 0 loaded story1 "A test" None new_story);
    reflexivity.
Defined.



(** The owner 7 asks for an image of the dragon; the user 8 does too. *)
Lemma image_request_needs_an_owned_card_witness :
  (exists validated,
      StyleField (Some "oil") = inr validated /\
      queue (snd (generate_image_view StyleField 7 3 (Some "oil") two_stories))
      = [generate_image_job (Some 3) validated]) /\
  fst (generate_image_view StyleField 8 3 (Some "oil") two_stories)
  = ImageNotFound404.
Proof.
  split.
  - destruct (image_request_needs_an_owned_card StyleField 7 3 (Some "oil")
                two_stories) as (_ & _ & _ & Hacc & _).
    destruct (Hacc "Image generation started" 0%nat (Some 3))
      as (_ & _ & _ & Hq).
    + vm_compute. reflexivity.
    + exact Hq.
  - destruct (image_request_needs_an_owned_card StyleField 8 3 (Some "oil")
                two_stories) as (_ & _ & _ & _ & _ & H404).
    apply H404; reflexivity.
Defined.

(** The graph of story 1 in the store with a connection in each story. *)
Lemma story_graph_shows_the_story_only_witness :
  fst (story_graph_view 7 1 linked)
  = GraphData [node_of knight; node_of dragon] [mkEdge (Some 1) (Some 3)] /\
  List.length [node_of knight; node_of dragon]
  = List.length (cards_of_story 1 (db linked)).
Proof.
  destruct (story_graph_shows_the_story_only 7 1 linked) as (_ & Hdata & _).
  assert (H : fst (story_graph_view 7 1 linked)
              = GraphData [node_of knight; node_of dragon]
                  [mkEdge (Some 1) (Some 3)])
    by (vm_compute; reflexivity).
  split; [exact H|].
  destruct (Hdata _ _ H) as (_ & _ & _ & Hn & _). exact Hn.
Defined.

(** The user 8 submits a turn to the story of the user 7. *)
Lemma turn_submission_to_a_foreign_story_witness :
  submit 8 1 (mkTurnRequest (Some "continue") None) new_story
  = (NotFound404, new_story).
Proof.
  apply (turn_submission_to_a_foreign_story CharField 8 1
           (mkTurnRequest (Some "continue") None) new_story); reflexivity.
Defined.

(** A short text is previewed whole. *)
Lemma content_preview_is_bounded_witness :
  content_preview knight = "A brave knight".
Proof.
  apply (proj1 (proj2 (content_preview_is_bounded knight))).
  cbn. lia.
Defined.

(** A turn for the story 9, which does not exist. *)
Lemma task_for_a_missing_target_reports_it_witness :
  turn 9 "continue" None new_story
  = (Returned (TaskFailed "Story matching query does not exist."),
     logged new_story
       [(ERROR, "Error generating story segment for story " ++ str_int 9
                ++ ": Story matching query does not exist.")]).
Proof.
  apply (proj1 (task_for_a_missing_target_reports_it 0 loaded nearer new_story
                  eq_refl)).
  reflexivity.
Defined.

(** A submission without a prompt that names the unknown card 5. *)
Lemma turn_submission_reports_field_errors_witness :
  submit 7 1 (mkTurnRequest None (Some 5)) new_story
  = (BadRequest400 [("parent_card_id", unknown_parent);
                    ("user_prompt", "This field is required.")], new_story).
Proof.
  apply (proj2 (turn_submission_reports_field_errors CharField 7 1
                  (mkTurnRequest None (Some 5)) new_story story1
                  "This field is required." eq_refl eq_refl eq_refl) 5).
  - reflexivity.
  - discriminate.
  - reflexivity.
Defined.

(** The recalculation for the edited card, twice. *)
Lemma recalculation_is_idempotent_witness :
  exists w1 w2,
    recalculate_embedding_task 0 loaded 3 edited
    = (Returned (EmbeddingRecalculated 3), w1) /\
    recalculate_embedding_task 0 loaded 3 w1
    = (Returned (EmbeddingRecalculated 3), w2) /\
    db w2 = db w1.
Proof.
  apply (recalculation_is_idempotent 0 loaded 3
           (mkFlashCard (Some 3) 1 "A red dragon" (Some (repeat 8 384)) None)
           edited); reflexivity.
Defined.


End SampleMore.
